(** * Attestation decoding of go-opentimestamps

    A shallow embedding of [opentimestamps/attestations.go]: the attestation
    variants, the package-level registry of prototypes and [ParseAttestation],
    together with the properties of the decoder stated in the specification.

    Conventions of the embedding.
    - A byte slice is the list of its bytes ([list byte]); nothing in the
      file writes to an element of a slice, so slices are modelled by value.
    - A Go [string] built with [string(b)] is [string_of_list_byte b].
    - [uint64] and [int] values are numbers in [N]; the file does no
      arithmetic on them and only compares lengths with the size constants.
    - The structs reached through pointers ([*pendingAttestation],
      [*bitcoinAttestation]) live in a heap of objects; a pointer is an index
      into it, [&ret] allocates a fresh object.
    - The package-level variable [attestations] is a component of the
      program state ([world]).
    - A function that returns [(T, error)] returns [Ok] or [Err]; a Go panic
      is the third outcome [Panic].
    - [*deserializationContext] is threaded explicitly: an operation takes
      the context and returns the context after the read. *)

From Stdlib Require Import NArith Strings.Byte String Ascii.
From Stdlib Require Import Decimal DecimalString DecimalN.
From stdpp Require Import base list option.

Local Open Scope N_scope.
Local Open Scope list_scope.

(** ** Constants *)

Definition attestationTagSize : N := 8.
Definition attestationMaxPayloadSize : N := 8192.
Definition pendingAttestationMaxUriLength : N := 1000.

Definition uint64 := N.

(** ** Errors and outcomes *)

(** Modelled from the spec: the failure conditions of the byte-stream
    reader, which is not part of [attestations.go] (spec section 7:
    TruncatedInput, PayloadTooLarge / UriTooLarge, MalformedVarint).
    [PayloadTooSmall] is the failure of the lower bound of a size-bounded
    read; every call in this file passes the lower bound 0. *)
Inductive readError : Type :=
| TruncatedInput
| PayloadTooLarge
| PayloadTooSmall
| MalformedVarint.

(** A Go [error]: one raised by the reader, or one built by [fmt.Errorf]
    in this file. *)
Inductive error : Type :=
| ReadError (e : readError)
| Errorf (msg : string).

Inductive result (A : Type) : Type :=
| ROk (a : A)
| RErr (e : readError).
Arguments ROk {A} a.
Arguments RErr {A} e.

Inductive outcome (A : Type) : Type :=
| Ok (a : A)
| Err (e : error)
| Panic (msg : string).
Arguments Ok {A} a.
Arguments Err {A} e.
Arguments Panic {A} msg.

(** ** The byte-stream reader *)

(** Modelled from the spec: [deserializationContext], the sequential reader
    of spec sections 2 and 6; its state is the bytes not yet read. *)
Definition deserializationContext := list byte.

(** Modelled from the spec: [newDeserializationContext] over a byte buffer,
    a fresh sub-stream whose end is the end of the buffer (spec 4.2 step 3). *)
Definition newDeserializationContext (buf : list byte) : deserializationContext :=
  buf.

Definition reader (A : Type) : Type :=
  deserializationContext -> result (A * deserializationContext).

(** Modelled from the spec: [readBytes], read-exact-N-bytes; fails with
    TruncatedInput if fewer bytes remain (spec 4.2 step 1, section 7). *)
Definition readBytes (n : N) : reader (list byte) :=
  fun ctx =>
    if n <=? N.of_nat (length ctx)
    then ROk (take (N.to_nat n) ctx, drop (N.to_nat n) ctx)
    else RErr TruncatedInput.

(** Modelled from the spec: [assertEOF], the end-of-stream check; true
    exactly when the stream is exhausted (spec 4.2 step 5, section 6). *)
Definition assertEOF (ctx : deserializationContext) : bool :=
  match ctx with
  | [] => true
  | _ :: _ => false
  end.

(** Modelled from the spec: [mustDecodeHex], the hex-string-to-bytes
    decoding that materializes the two tag constants (spec section 1). Both
    calls in the file are on well-formed literals, so the failure case of
    the decoding is never taken. *)
Definition hexDigit (c : ascii) : option N :=
  let n := N_of_ascii c in
  if (48 <=? n) && (n <=? 57) then Some (n - 48)
  else if (97 <=? n) && (n <=? 102) then Some (n - 87)
  else if (65 <=? n) && (n <=? 70) then Some (n - 55)
  else None.

Fixpoint decodeHex (s : string) : option (list byte) :=
  match s with
  | EmptyString => Some []
  | String hi (String lo s') =>
      match hexDigit hi, hexDigit lo, decodeHex s' with
      | Some h, Some l, Some bs =>
          match Byte.of_N (16 * h + l) with
          | Some b => Some (b :: bs)
          | None => None
          end
      | _, _, _ => None
      end
  | String _ EmptyString => None
  end.

Definition mustDecodeHex (s : string) : list byte :=
  match decodeHex s with
  | Some bs => bs
  | None => []
  end.

Definition bitcoinAttestationTag : list byte :=
  Eval cbv in mustDecodeHex "0588960d73d71901".
Definition pendingAttestationTag : list byte :=
  Eval cbv in mustDecodeHex "83dfe30d2ef90c8e".

(** [bytes.Equal]: same length and the same byte at every index. *)
Fixpoint bytes_Equal (a b : list byte) : bool :=
  match a, b with
  | [], [] => true
  | x :: a', y :: b' => Byte.eqb x y && bytes_Equal a' b'
  | _, _ => false
  end.

(** ** Data model *)

Record baseAttestation : Type := BaseAttestation { tag : list byte }.

Record pendingAttestation : Type := PendingAttestation {
  pending_base : baseAttestation;
  uri : string
}.

Record bitcoinAttestation : Type := BitcoinAttestation {
  bitcoin_base : baseAttestation;
  height : uint64
}.

(** The catch-all for a tag no prototype owns. *)
Record unknownAttestation : Type := UnknownAttestation {
  unknown_tag : list byte;
  bytes : list byte
}.

(** Field assignments [ret.uri = u] and [ret.height = h] on a struct value. *)
Definition set_uri (v : pendingAttestation) (u : string) : pendingAttestation :=
  {| pending_base := pending_base v; uri := u |}.

Definition set_height (v : bitcoinAttestation) (h : uint64) : bitcoinAttestation :=
  {| bitcoin_base := bitcoin_base v; height := h |}.

Definition loc := nat.

(** A value of the interface type [attestation]: its dynamic type is a
    pointer to one of the two decodable structs, or an [unknownAttestation]
    held by value. *)
Inductive attestation : Type :=
| PendingPtr (p : loc)
| BitcoinPtr (b : loc)
| UnknownVal (u : unknownAttestation).

Inductive object : Type :=
| ObjPending (p : pendingAttestation)
| ObjBitcoin (b : bitcoinAttestation).

(** The program state: the heap of structs reached through pointers and the
    package-level variable [attestations]. *)
Record world : Type := World {
  heap : list object;
  attestations : list attestation
}.

(** ** The monad of the embedding: state passing over [world], with errors
    and panics *)

Definition M (A : Type) : Type := world -> outcome A * world.

Definition ret {A} (a : A) : M A := fun w => (Ok a, w).

Definition bind {A B} (m : M A) (f : A -> M B) : M B :=
  fun w =>
    match m w with
    | (Ok a, w') => f a w'
    | (Err e, w') => (Err e, w')
    | (Panic msg, w') => (Panic msg, w')
    end.

Definition fail {A} (e : error) : M A := fun w => (Err e, w).
Definition panic {A} (msg : string) : M A := fun w => (Panic msg, w).

Notation "'do' x <- m ; k" := (bind m (fun x => k))
  (at level 10, x pattern, m at level 100, k at level 200, only parsing).

(** A call of a reader operation: [if err != nil { return nil, err }]. *)
Definition try {A} (r : result A) : M A :=
  match r with
  | ROk a => ret a
  | RErr e => fail (ReadError e)
  end.

(** [&v]: a fresh object. *)
Definition alloc (o : object) : M loc :=
  fun w => (Ok (length (heap w)),
            {| heap := heap w ++ [o]; attestations := attestations w |}).

(** The text of the run-time panic of a nil or ill-typed dereference; a panic
    is modelled by its message. *)
Definition nilDeref : string :=
  "runtime error: invalid memory address or nil pointer dereference".

(** [*p] for [p *pendingAttestation]. *)
Definition loadPending (p : loc) : M pendingAttestation :=
  fun w =>
    match heap w !! p with
    | Some (ObjPending v) => (Ok v, w)
    | _ => (Panic nilDeref, w)
    end.

(** [*b] for [b *bitcoinAttestation]. *)
Definition loadBitcoin (b : loc) : M bitcoinAttestation :=
  fun w =>
    match heap w !! b with
    | Some (ObjBitcoin v) => (Ok v, w)
    | _ => (Panic nilDeref, w)
    end.

(** Reading and assigning the package-level variable. *)
Definition getAttestations : M (list attestation) :=
  fun w => (Ok (attestations w), w).

Definition setAttestations (l : list attestation) : M unit :=
  fun w => (Ok tt, {| heap := heap w; attestations := l |}).

(** ** Methods *)

Definition baseAttestation_match (b : baseAttestation) (t : list byte) : bool :=
  bytes_Equal (tag b) t.

Definition newPendingAttestation : M attestation :=
  do p <- alloc (ObjPending {| pending_base := {| tag := pendingAttestationTag |};
                               uri := EmptyString |}) ;
  ret (PendingPtr p).

Definition newBitcoinAttestation : M attestation :=
  do b <- alloc (ObjBitcoin {| bitcoin_base := {| tag := bitcoinAttestationTag |};
                               height := 0 |}) ;
  ret (BitcoinPtr b).

Definition pendingAttestation_match (p : loc) (t : list byte) : M bool :=
  do v <- loadPending p ;
  ret (baseAttestation_match (pending_base v) t).

Definition bitcoinAttestation_match (b : loc) (t : list byte) : M bool :=
  do v <- loadBitcoin b ;
  ret (baseAttestation_match (bitcoin_base v) t).

Definition unknownAttestation_match (u : unknownAttestation) (t : list byte) : M bool :=
  panic "not implemented".

Definition unknownAttestation_decode (u : unknownAttestation)
    (ctx : deserializationContext) : M (attestation * deserializationContext) :=
  panic "not implemented".

(** Dynamic dispatch of [a.match(tag)]. *)
Definition attestation_match (a : attestation) (t : list byte) : M bool :=
  match a with
  | PendingPtr p => pendingAttestation_match p t
  | BitcoinPtr b => bitcoinAttestation_match b t
  | UnknownVal u => unknownAttestation_match u t
  end.

Section Decoder.

(** [readVarUint], the reader of a variable-length unsigned integer. It is
    not part of [attestations.go], and the specification leaves its encoding
    to the stream reader (section 6); the decoder is proved for every such
    reader. [leb128] below is the instance used to evaluate it. *)
Variable readVarUint : reader uint64.

(** Modelled from the spec: [readVarBytes], read-size-bounded-byte-sequence
    (min, max): a varint length, the bounds checked before the bytes are
    read, then exactly that many bytes (spec 4.2 step 2, sections 5 and 7). *)
Definition readVarBytes (minLen maxLen : N) : reader (list byte) :=
  fun ctx =>
    match readVarUint ctx with
    | RErr e => RErr e
    | ROk (v, ctx') =>
        if maxLen <? v then RErr PayloadTooLarge
        else if v <? minLen then RErr PayloadTooSmall
        else readBytes v ctx'
    end.

Definition pendingAttestation_decode (p : loc) (ctx : deserializationContext)
    : M (attestation * deserializationContext) :=
  do (uri_bytes, ctx) <- try (readVarBytes 0 pendingAttestationMaxUriLength ctx) ;
  do v <- loadPending p ;
  let ret0 := v in
  let ret0 := set_uri ret0 (string_of_list_byte uri_bytes) in
  do r <- alloc (ObjPending ret0) ;
  ret (PendingPtr r, ctx).

Definition bitcoinAttestation_decode (b : loc) (ctx : deserializationContext)
    : M (attestation * deserializationContext) :=
  do (h, ctx) <- try (readVarUint ctx) ;
  do v <- loadBitcoin b ;
  let ret0 := v in
  let ret0 := set_height ret0 h in
  do r <- alloc (ObjBitcoin ret0) ;
  ret (BitcoinPtr r, ctx).

(** Dynamic dispatch of [a.decode(ctx)]. *)
Definition attestation_decode (a : attestation) (ctx : deserializationContext)
    : M (attestation * deserializationContext) :=
  match a with
  | PendingPtr p => pendingAttestation_decode p ctx
  | BitcoinPtr b => bitcoinAttestation_decode b ctx
  | UnknownVal u => unknownAttestation_decode u ctx
  end.

Definition errExpectedEOF : error := Errorf "expected EOF in attCtx".

(** The body of [if a.match(tag) { ... }]: decode, then the end-of-payload
    check. *)
Definition decodeMatched (a : attestation) (attCtx : deserializationContext)
    : M attestation :=
  do (att, attCtx) <- attestation_decode a attCtx ;
  if negb (assertEOF attCtx) then fail errExpectedEOF
  else ret att.

(** [for _, a := range attestations { ... }] followed by the final
    [return unknownAttestation{tag, attBytes}, nil]. *)
Fixpoint rangeAttestations (l : list attestation) (t attBytes : list byte)
    (attCtx : deserializationContext) : M attestation :=
  match l with
  | [] => ret (UnknownVal {| unknown_tag := t; bytes := attBytes |})
  | a :: l' =>
      do m <- attestation_match a t ;
      if m then decodeMatched a attCtx
      else rangeAttestations l' t attBytes attCtx
  end.

Definition ParseAttestation (ctx : deserializationContext)
    : M (attestation * deserializationContext) :=
  do (t, ctx) <- try (readBytes attestationTagSize ctx) ;
  do (attBytes, ctx) <- try (readVarBytes 0 attestationMaxPayloadSize ctx) ;
  let attCtx := newDeserializationContext attBytes in
  do l <- getAttestations ;
  do att <- rangeAttestations l t attBytes attCtx ;
  ret (att, ctx).

End Decoder.

(** The state after package initialization:
    [var attestations = []attestation{newPendingAttestation(), newBitcoinAttestation()}]. *)
Definition initPackage : M unit :=
  do p <- newPendingAttestation ;
  do b <- newBitcoinAttestation ;
  setAttestations [p; b].

Definition initWorld : world :=
  Eval cbv in snd (initPackage {| heap := []; attestations := [] |}).

(** ** An instance of the integer reader *)

(** Modelled from the spec: the variable-length unsigned integer of the wire
    format. The specification fixes it through its scenarios only (section 8:
    the bytes [e8 07] are the height 1000, the byte [02] the length 2): seven
    bits a byte, least significant group first, the top bit set on every byte
    but the last. A stream that ends inside the integer is TruncatedInput, a
    value that does not fit 64 bits is MalformedVarint (section 7). *)
Fixpoint leb128_from (shift val : N) (ctx : deserializationContext)
    : result (uint64 * deserializationContext) :=
  match ctx with
  | [] => RErr TruncatedInput
  | b :: ctx' =>
      let val := N.lor val (N.shiftl (N.land (Byte.to_N b) 127) shift) in
      if N.testbit (Byte.to_N b) 7 then leb128_from (shift + 7) val ctx'
      else if val <? 2 ^ 64 then ROk (val, ctx')
      else RErr MalformedVarint
  end.

Definition leb128 : reader uint64 := leb128_from 0 0.

(** What a caller can observe of a run: the value the returned attestation
    denotes in the final heap, and the stream after the record. *)
Inductive attestationValue : Type :=
| VPending (p : pendingAttestation)
| VBitcoin (b : bitcoinAttestation)
| VUnknown (u : unknownAttestation).

Definition deref (w : world) (a : attestation) : option attestationValue :=
  match a with
  | PendingPtr p =>
      match heap w !! p with
      | Some (ObjPending v) => Some (VPending v)
      | _ => None
      end
  | BitcoinPtr b =>
      match heap w !! b with
      | Some (ObjBitcoin v) => Some (VBitcoin v)
      | _ => None
      end
  | UnknownVal u => Some (VUnknown u)
  end.

Definition observe (r : outcome (attestation * deserializationContext) * world)
    : outcome (option attestationValue * deserializationContext) :=
  match r with
  | (Ok (a, ctx), w) => Ok (deref w a, ctx)
  | (Err e, _) => Err e
  | (Panic msg, _) => Panic msg
  end.

(** A state the package can be in after initialization and any number of
    decode calls: the registry is the initial one and the two prototypes are
    where initialization put them. *)
Definition wellFormed (w : world) : Prop :=
  attestations w = attestations initWorld /\ heap initWorld `prefix_of` heap w.

(** The effect a call may have on the state: the registry is the same list
    and every object of the old heap is still there, unchanged. *)
Definition extends (w w' : world) : Prop :=
  attestations w' = attestations w /\ heap w `prefix_of` heap w'.

Definition pendingPrototype : pendingAttestation :=
  {| pending_base := {| tag := pendingAttestationTag |}; uri := EmptyString |}.

Definition bitcoinPrototype : bitcoinAttestation :=
  {| bitcoin_base := {| tag := bitcoinAttestationTag |}; height := 0 |}.

(** The state after [&ret] in a state [w]. *)
Definition allocated (w : world) (o : object) : world :=
  {| heap := heap w ++ [o]; attestations := attestations w |}.

(** A computation that only allocates: from every state it ends in a state
    that extends it. *)
Definition framed {A} (m : M A) : Prop :=
  forall w, extends w (snd (m w)).

(** ** Display methods *)

(** The verb [%d] of [fmt.Sprintf] on a [uint64]: its decimal digits, without
    sign or leading zeros, ["0"] for zero. *)
Definition formatUint (n : uint64) : string :=
  NilEmpty.string_of_uint (N.to_uint n).

(** [func (p *pendingAttestation) String() string]; the verb [%s] on a
    string writes its bytes as they are. *)
Definition pendingAttestation_String (p : loc) : M string :=
  do v <- loadPending p ;
  ret ("VERIFY PendingAttestation(url=" ++ uri v ++ ")")%string.

(** [func (b *bitcoinAttestation) String() string]. *)
Definition bitcoinAttestation_String (b : loc) : M string :=
  do v <- loadBitcoin b ;
  ret ("VERIFY BitcoinAttestation(height=" ++ formatUint (height v) ++ ")")%string.

(** A registry entry on which [match] and [decode] can run: a pointer to a
    struct of its type. *)
Definition validPrototype (w : world) (a : attestation) : Prop :=
  match a with
  | PendingPtr p => exists v, heap w !! p = Some (ObjPending v)
  | BitcoinPtr b => exists v, heap w !! b = Some (ObjBitcoin v)
  | UnknownVal _ => False
  end.

(** A state in which order in the registry matters: the registry holds a
    [*pendingAttestation] and then a [*bitcoinAttestation] whose tags are
    both the pending constant, as after registering a variant with a
    colliding tag. *)
Definition collidingWorld : world :=
  {| heap := [ObjPending pendingPrototype;
              ObjBitcoin {| bitcoin_base := {| tag := pendingAttestationTag |};
                            height := 0 |}];
     attestations := [PendingPtr 0%nat; BitcoinPtr 1%nat] |}.

(** An integer reader that reads from the front of the stream: bytes after
    the integer do not change what it returns and are left where they are. *)
Definition readsFront (rd : reader uint64) : Prop :=
  forall (c rest extra : deserializationContext) (v : uint64),
    rd c = ROk (v, rest) -> rd (c ++ extra) = ROk (v, rest ++ extra).

(** * Properties *)

(** ** Byte comparison *)

Lemma bytes_Equal_spec (a b : list byte) : bytes_Equal a b = true <-> a = b.
Proof.
  revert b; induction a as [|x a IH]; intros [|y b]; simpl; try (split; congruence).
  rewrite andb_true_iff, IH. split.
  - intros [Hxy ->]. apply Byte.byte_dec_bl in Hxy. now subst.
  - intros [= -> ->]. split; [apply Byte.byte_dec_lb|]; reflexivity.
Qed.

Lemma bytes_Equal_refl (a : list byte) : bytes_Equal a a = true.
Proof. now apply bytes_Equal_spec. Qed.

Lemma bytes_Equal_neq (a b : list byte) : a <> b -> bytes_Equal a b = false.
Proof.
  intros Hne. destruct (bytes_Equal a b) eqn:E; [|reflexivity].
  apply bytes_Equal_spec in E. contradiction.
Qed.

Lemma tags_distinct : pendingAttestationTag <> bitcoinAttestationTag.
Proof. discriminate. Qed.

(** ** The reader *)

Lemma readBytes_ok (n : N) (ctx : deserializationContext) :
  n <= N.of_nat (length ctx) ->
  readBytes n ctx = ROk (take (N.to_nat n) ctx, drop (N.to_nat n) ctx).
Proof. intros H. unfold readBytes. now apply N.leb_le in H as ->. Qed.

Lemma readBytes_truncated (n : N) (ctx : deserializationContext) :
  N.of_nat (length ctx) < n -> readBytes n ctx = RErr TruncatedInput.
Proof. intros H. unfold readBytes. now apply N.leb_gt in H as ->. Qed.

Lemma readBytes_length (n : N) (ctx bs rest : deserializationContext) :
  readBytes n ctx = ROk (bs, rest) ->
  N.of_nat (length bs) = n /\ ctx = bs ++ rest.
Proof.
  unfold readBytes. destruct (n <=? N.of_nat (length ctx)) eqn:E; [|discriminate].
  intros [= <- <-]. apply N.leb_le in E. split.
  - rewrite length_take. lia.
  - now rewrite take_drop.
Qed.

Lemma assertEOF_false (ctx : deserializationContext) :
  assertEOF ctx = false <-> ctx <> [].
Proof. destruct ctx; simpl; split; congruence. Qed.

(** ** States *)

Lemma extends_refl (w : world) : extends w w.
Proof. split; reflexivity. Qed.

Lemma extends_trans (w1 w2 w3 : world) :
  extends w1 w2 -> extends w2 w3 -> extends w1 w3.
Proof.
  intros [Ha1 Hh1] [Ha2 Hh2]. split; [congruence|]. now transitivity (heap w2).
Qed.

Lemma extends_allocated (w : world) (o : object) : extends w (allocated w o).
Proof. split; [reflexivity|]. now apply prefix_app_r. Qed.

Lemma extends_lookup (w w' : world) (l : loc) (o : object) :
  extends w w' -> heap w !! l = Some o -> heap w' !! l = Some o.
Proof. intros [_ Hp] Hl. eapply prefix_lookup_Some; eassumption. Qed.

Lemma wellFormed_initWorld : wellFormed initWorld.
Proof. split; reflexivity. Qed.

Lemma wellFormed_extends (w w' : world) :
  wellFormed w -> extends w w' -> wellFormed w'.
Proof.
  intros [Ha Hh] [Ha' Hh']. split; [congruence|]. now transitivity (heap w).
Qed.

Lemma wellFormed_inv (w : world) :
  wellFormed w ->
  exists extra, w = {| heap := ObjPending pendingPrototype
                               :: ObjBitcoin bitcoinPrototype :: extra;
                       attestations := [PendingPtr 0%nat; BitcoinPtr 1%nat] |}.
Proof.
  destruct w as [h reg]. intros [Ha [extra Hh]]. simpl in *. subst.
  exists extra. reflexivity.
Qed.

Lemma wellFormed_pending (w : world) :
  wellFormed w -> heap w !! 0%nat = Some (ObjPending pendingPrototype).
Proof. intros (extra & ->)%wellFormed_inv. reflexivity. Qed.

Lemma wellFormed_bitcoin (w : world) :
  wellFormed w -> heap w !! 1%nat = Some (ObjBitcoin bitcoinPrototype).
Proof. intros (extra & ->)%wellFormed_inv. reflexivity. Qed.

(** ** Frame lemmas: no operation of the decoder writes to an existing
    object or to the registry *)

Lemma framed_ret {A} (a : A) : framed (ret a).
Proof. intros w. apply extends_refl. Qed.

Lemma framed_fail {A} (e : error) : framed (@fail A e).
Proof. intros w. apply extends_refl. Qed.

Lemma framed_panic {A} (msg : string) : framed (@panic A msg).
Proof. intros w. apply extends_refl. Qed.

Lemma framed_bind {A B} (m : M A) (f : A -> M B) :
  framed m -> (forall a, framed (f a)) -> framed (bind m f).
Proof.
  intros Hm Hf w. unfold bind. specialize (Hm w).
  destruct (m w) as [[a|e|msg] w1]; simpl in *; try assumption.
  eapply extends_trans; [eassumption|apply Hf].
Qed.

Lemma framed_try {A} (r : result A) : framed (try r).
Proof. destruct r; [apply framed_ret|apply framed_fail]. Qed.

Lemma framed_alloc (o : object) : framed (alloc o).
Proof. intros w. apply (extends_allocated w o). Qed.

Lemma framed_loadPending (p : loc) : framed (loadPending p).
Proof.
  intros w. unfold loadPending.
  destruct (heap w !! p) as [[v|v]|]; apply extends_refl.
Qed.

Lemma framed_loadBitcoin (b : loc) : framed (loadBitcoin b).
Proof.
  intros w. unfold loadBitcoin.
  destruct (heap w !! b) as [[v|v]|]; apply extends_refl.
Qed.

Lemma framed_getAttestations : framed getAttestations.
Proof. intros w. apply extends_refl. Qed.

Create HintDb frame discriminated.
#[local] Hint Resolve framed_ret framed_fail framed_panic framed_try
  framed_alloc framed_loadPending framed_loadBitcoin framed_getAttestations
  : frame.

Ltac frame_step :=
  first [ apply framed_bind; [|intros ?]
        | match goal with |- framed (match ?x with _ => _ end) => destruct x end
        | match goal with |- framed (if ?b then _ else _) => destruct b end
        | solve [auto with frame] ].

Lemma framed_attestation_match (a : attestation) (t : list byte) :
  framed (attestation_match a t).
Proof.
  destruct a; unfold attestation_match, pendingAttestation_match,
    bitcoinAttestation_match, unknownAttestation_match; repeat frame_step.
Qed.

Section DecoderFacts.

Variable readVarUint : reader uint64.

Lemma framed_attestation_decode (a : attestation) (ctx : deserializationContext) :
  framed (attestation_decode readVarUint a ctx).
Proof.
  destruct a; unfold attestation_decode, pendingAttestation_decode,
    bitcoinAttestation_decode, unknownAttestation_decode; repeat frame_step.
Qed.

Lemma framed_decodeMatched (a : attestation) (attCtx : deserializationContext) :
  framed (decodeMatched readVarUint a attCtx).
Proof.
  unfold decodeMatched. apply framed_bind; [apply framed_attestation_decode|].
  intros [att c]. repeat frame_step.
Qed.

Lemma framed_rangeAttestations (l : list attestation) (t attBytes : list byte)
    (attCtx : deserializationContext) :
  framed (rangeAttestations readVarUint l t attBytes attCtx).
Proof.
  induction l as [|a l IH]; simpl; [apply framed_ret|].
  apply framed_bind; [apply framed_attestation_match|].
  intros [|]; [apply framed_decodeMatched|apply IH].
Qed.

Lemma framed_ParseAttestation (ctx : deserializationContext) :
  framed (ParseAttestation readVarUint ctx).
Proof.
  unfold ParseAttestation.
  apply framed_bind; [apply framed_try|]. intros [t c1].
  apply framed_bind; [apply framed_try|]. intros [attBytes c2].
  apply framed_bind; [apply framed_getAttestations|]. intros l.
  apply framed_bind; [apply framed_rangeAttestations|]. intros att.
  apply framed_ret.
Qed.

End DecoderFacts.

(** ** Evaluation of the methods *)

Lemma loadPending_eval (w : world) (p : loc) (v : pendingAttestation) :
  heap w !! p = Some (ObjPending v) -> loadPending p w = (Ok v, w).
Proof. intros H. unfold loadPending. now rewrite H. Qed.

Lemma loadBitcoin_eval (w : world) (b : loc) (v : bitcoinAttestation) :
  heap w !! b = Some (ObjBitcoin v) -> loadBitcoin b w = (Ok v, w).
Proof. intros H. unfold loadBitcoin. now rewrite H. Qed.

Lemma pendingAttestation_match_eval (w : world) (p : loc)
    (v : pendingAttestation) (t : list byte) :
  heap w !! p = Some (ObjPending v) ->
  pendingAttestation_match p t w = (Ok (bytes_Equal (tag (pending_base v)) t), w).
Proof.
  intros H. unfold pendingAttestation_match, bind.
  now rewrite (loadPending_eval _ _ _ H).
Qed.

Lemma bitcoinAttestation_match_eval (w : world) (b : loc)
    (v : bitcoinAttestation) (t : list byte) :
  heap w !! b = Some (ObjBitcoin v) ->
  bitcoinAttestation_match b t w = (Ok (bytes_Equal (tag (bitcoin_base v)) t), w).
Proof.
  intros H. unfold bitcoinAttestation_match, bind.
  now rewrite (loadBitcoin_eval _ _ _ H).
Qed.

Lemma deref_allocated (w : world) (o : object) :
  heap (allocated w o) !! length (heap w) = Some o.
Proof. simpl. now rewrite lookup_app_r, Nat.sub_diag by lia. Qed.

Section Dispatch.

Variable readVarUint : reader uint64.

Lemma readVarBytes_eval (minLen maxLen : N) (ctx c1 : deserializationContext)
    (n : uint64) :
  readVarUint ctx = ROk (n, c1) -> minLen <= n -> n <= maxLen ->
  readVarBytes readVarUint minLen maxLen ctx = readBytes n c1.
Proof.
  intros Hv Hmin Hmax. unfold readVarBytes. rewrite Hv.
  apply N.ltb_ge in Hmax as ->. now apply N.ltb_ge in Hmin as ->.
Qed.

Lemma readVarBytes_too_large (minLen maxLen : N) (ctx c1 : deserializationContext)
    (n : uint64) :
  readVarUint ctx = ROk (n, c1) -> maxLen < n ->
  readVarBytes readVarUint minLen maxLen ctx = RErr PayloadTooLarge.
Proof.
  intros Hv Hmax. unfold readVarBytes. rewrite Hv.
  now apply N.ltb_lt in Hmax as ->.
Qed.

Lemma readVarBytes_inv (minLen maxLen : N) (ctx rest : deserializationContext)
    (bs : list byte) :
  readVarBytes readVarUint minLen maxLen ctx = ROk (bs, rest) ->
  exists n c1, readVarUint ctx = ROk (n, c1) /\ minLen <= n /\ n <= maxLen /\
               N.of_nat (length bs) = n /\ c1 = bs ++ rest.
Proof.
  unfold readVarBytes. destruct (readVarUint ctx) as [[n c1]|e]; [|discriminate].
  destruct (maxLen <? n) eqn:Emax; [discriminate|].
  destruct (n <? minLen) eqn:Emin; [discriminate|].
  intros [Hlen Happ]%readBytes_length.
  apply N.ltb_ge in Emax, Emin. now exists n, c1.
Qed.

Lemma pendingAttestation_decode_eval (w : world) (p : loc)
    (v : pendingAttestation) (ctx : deserializationContext) :
  heap w !! p = Some (ObjPending v) ->
  pendingAttestation_decode readVarUint p ctx w =
    match readVarBytes readVarUint 0 pendingAttestationMaxUriLength ctx with
    | RErr e => (Err (ReadError e), w)
    | ROk (u, rest) =>
        (Ok (PendingPtr (length (heap w)), rest),
         allocated w (ObjPending (set_uri v (string_of_list_byte u))))
    end.
Proof.
  intros H. unfold pendingAttestation_decode, bind.
  destruct (readVarBytes readVarUint 0 pendingAttestationMaxUriLength ctx)
    as [[u rest]|e]; simpl; [|reflexivity].
  now rewrite (loadPending_eval _ _ _ H).
Qed.

Lemma bitcoinAttestation_decode_eval (w : world) (b : loc)
    (v : bitcoinAttestation) (ctx : deserializationContext) :
  heap w !! b = Some (ObjBitcoin v) ->
  bitcoinAttestation_decode readVarUint b ctx w =
    match readVarUint ctx with
    | RErr e => (Err (ReadError e), w)
    | ROk (h, rest) =>
        (Ok (BitcoinPtr (length (heap w)), rest),
         allocated w (ObjBitcoin (set_height v h)))
    end.
Proof.
  intros H. unfold bitcoinAttestation_decode, bind.
  destruct (readVarUint ctx) as [[h rest]|e]; simpl; [|reflexivity].
  now rewrite (loadBitcoin_eval _ _ _ H).
Qed.

(** The two reads at the head of [ParseAttestation], then the scan. *)
Lemma ParseAttestation_reads (ctx c1 c2 : deserializationContext)
    (t attBytes : list byte) (w : world) :
  readBytes attestationTagSize ctx = ROk (t, c1) ->
  readVarBytes readVarUint 0 attestationMaxPayloadSize c1 = ROk (attBytes, c2) ->
  ParseAttestation readVarUint ctx w =
    bind (rangeAttestations readVarUint (attestations w) t attBytes
            (newDeserializationContext attBytes))
         (fun att => ret (att, c2)) w.
Proof.
  intros Ht Hp. unfold ParseAttestation at 1.
  unfold bind at 1. rewrite Ht. simpl.
  unfold bind at 1. rewrite Hp. simpl.
  reflexivity.
Qed.

Lemma ParseAttestation_tag_error (ctx : deserializationContext) (e : readError)
    (w : world) :
  readBytes attestationTagSize ctx = RErr e ->
  ParseAttestation readVarUint ctx w = (Err (ReadError e), w).
Proof. intros Ht. unfold ParseAttestation, bind. now rewrite Ht. Qed.

Lemma ParseAttestation_payload_error (ctx c1 : deserializationContext)
    (t : list byte) (e : readError) (w : world) :
  readBytes attestationTagSize ctx = ROk (t, c1) ->
  readVarBytes readVarUint 0 attestationMaxPayloadSize c1 = RErr e ->
  ParseAttestation readVarUint ctx w = (Err (ReadError e), w).
Proof.
  intros Ht Hp. unfold ParseAttestation, bind. rewrite Ht. simpl. now rewrite Hp.
Qed.

(** The scan over the registry of a well-formed state. *)
Lemma rangeAttestations_wellFormed (w : world) (t attBytes : list byte)
    (attCtx : deserializationContext) :
  wellFormed w ->
  rangeAttestations readVarUint (attestations w) t attBytes attCtx w =
    if bytes_Equal pendingAttestationTag t
    then decodeMatched readVarUint (PendingPtr 0%nat) attCtx w
    else if bytes_Equal bitcoinAttestationTag t
    then decodeMatched readVarUint (BitcoinPtr 1%nat) attCtx w
    else (Ok (UnknownVal {| unknown_tag := t; bytes := attBytes |}), w).
Proof.
  intros Hw. pose proof (wellFormed_pending w Hw) as Hp.
  pose proof (wellFormed_bitcoin w Hw) as Hb.
  destruct Hw as [-> _]. simpl attestations.
  cbn [rangeAttestations attestation_match]. unfold bind at 1.
  rewrite (pendingAttestation_match_eval _ _ _ _ Hp).
  change (tag (pending_base pendingPrototype)) with pendingAttestationTag.
  destruct (bytes_Equal pendingAttestationTag t); [reflexivity|].
  unfold bind at 1.
  rewrite (bitcoinAttestation_match_eval _ _ _ _ Hb).
  change (tag (bitcoin_base bitcoinPrototype)) with bitcoinAttestationTag.
  destruct (bytes_Equal bitcoinAttestationTag t); reflexivity.
Qed.

Lemma decodeMatched_eval (a : attestation) (attCtx : deserializationContext)
    (w : world) :
  decodeMatched readVarUint a attCtx w =
    match attestation_decode readVarUint a attCtx w with
    | (Ok (att, rest), w') =>
        if assertEOF rest then (Ok att, w') else (Err errExpectedEOF, w')
    | (Err e, w') => (Err e, w')
    | (Panic msg, w') => (Panic msg, w')
    end.
Proof.
  unfold decodeMatched, bind.
  destruct (attestation_decode readVarUint a attCtx w) as [[[att rest]|e|msg] w'];
    try reflexivity.
  now destruct (assertEOF rest).
Qed.

End Dispatch.

(** ** The decoder on the states of the package *)

Section Decoding.

Variable readVarUint : reader uint64.

Lemma readBytes_tag (ctx : deserializationContext) :
  8 <= N.of_nat (length ctx) ->
  readBytes attestationTagSize ctx = ROk (take 8 ctx, drop 8 ctx).
Proof. intros H. now rewrite (readBytes_ok attestationTagSize ctx H). Qed.

(** C1. A record whose 8-byte tag is neither the bitcoin nor the pending
    constant, and whose declared payload (at most 8192 bytes) is wholly in
    the stream, decodes without error to an [unknownAttestation] that holds
    exactly the tag bytes and the payload bytes of the stream; the state is
    left as it was and the stream stands after the payload. *)
Theorem unknown_tag_preserved (ctx c1 : deserializationContext) (n : uint64)
    (w : world) :
  wellFormed w ->
  8 <= N.of_nat (length ctx) ->
  take 8 ctx <> bitcoinAttestationTag ->
  take 8 ctx <> pendingAttestationTag ->
  readVarUint (drop 8 ctx) = ROk (n, c1) ->
  n <= 8192 ->
  n <= N.of_nat (length c1) ->
  ParseAttestation readVarUint ctx w =
    (Ok (UnknownVal {| unknown_tag := take 8 ctx;
                       bytes := take (N.to_nat n) c1 |},
         drop (N.to_nat n) c1), w).
Proof.
  intros Hw Hlen Hb Hp Hv Hmax Havail.
  assert (Hpay : readVarBytes readVarUint 0 attestationMaxPayloadSize (drop 8 ctx)
                 = ROk (take (N.to_nat n) c1, drop (N.to_nat n) c1)).
  { rewrite (readVarBytes_eval _ _ _ _ _ _ Hv); [|lia|exact Hmax].
    now apply readBytes_ok. }
  rewrite (ParseAttestation_reads _ _ _ _ _ _ _ (readBytes_tag _ Hlen) Hpay).
  unfold bind. rewrite (rangeAttestations_wellFormed _ _ _ _ _ Hw).
  rewrite (bytes_Equal_neq pendingAttestationTag) by congruence.
  rewrite (bytes_Equal_neq bitcoinAttestationTag) by congruence.
  reflexivity.
Qed.

(** C5. Decoding through a [*bitcoinAttestation] reads one variable-length
    integer and nothing else: the result is a fresh copy of the receiver
    with [height] set to the integer, and the sub-stream is left right after
    it. A bitcoin-tagged record whose payload is exactly one integer [h]
    therefore decodes to a [bitcoinAttestation] of height [h], for every
    value [h] the integer reader can produce. *)
Theorem bitcoin_height_decoded (w : world) :
  wellFormed w ->
  (forall (b : loc) (v : bitcoinAttestation) (sub rest : deserializationContext)
          (h : uint64),
     heap w !! b = Some (ObjBitcoin v) ->
     readVarUint sub = ROk (h, rest) ->
     bitcoinAttestation_decode readVarUint b sub w =
       (Ok (BitcoinPtr (length (heap w)), rest),
        allocated w (ObjBitcoin {| bitcoin_base := bitcoin_base v; height := h |})))
  /\
  (forall (ctx c1 : deserializationContext) (payload : list byte) (h : uint64),
     8 <= N.of_nat (length ctx) ->
     take 8 ctx = bitcoinAttestationTag ->
     readVarBytes readVarUint 0 8192 (drop 8 ctx) = ROk (payload, c1) ->
     readVarUint payload = ROk (h, []) ->
     let r := ParseAttestation readVarUint ctx w in
     fst r = Ok (BitcoinPtr (length (heap w)), c1) /\
     deref (snd r) (BitcoinPtr (length (heap w))) =
       Some (VBitcoin {| bitcoin_base := {| tag := bitcoinAttestationTag |};
                         height := h |})).
Proof.
  intros Hw. split.
  - intros b v sub rest h Hb Hv.
    rewrite (bitcoinAttestation_decode_eval _ _ _ _ _ Hb), Hv. reflexivity.
  - intros ctx c1 payload h Hlen Htag Hpay Hv r. subst r.
    rewrite (ParseAttestation_reads _ _ _ _ _ _ _ (readBytes_tag _ Hlen) Hpay).
    unfold bind. rewrite (rangeAttestations_wellFormed _ _ _ _ _ Hw), Htag.
    change (bytes_Equal pendingAttestationTag bitcoinAttestationTag) with false.
    rewrite bytes_Equal_refl, decodeMatched_eval. cbn [attestation_decode].
    rewrite (bitcoinAttestation_decode_eval _ _ _ _ _ (wellFormed_bitcoin _ Hw)).
    unfold newDeserializationContext. rewrite Hv. cbn [assertEOF fst snd ret].
    split; [reflexivity|]. cbn [deref]. now rewrite deref_allocated.
Qed.

(** C4. Decoding through a [*pendingAttestation] reads one length-prefixed
    byte sequence bounded by 1000 and nothing else. If the sub-stream is the
    length prefix followed by exactly the declared bytes [s], at most 1000 of
    them, the result is a fresh copy of the receiver whose [uri] holds the
    bytes [s], and a pending-tagged record with that payload decodes to it.
    If the declared length is above 1000 the decode fails with the too-large
    condition, whatever follows the prefix. *)
Theorem pending_uri_decoded (w : world) :
  wellFormed w ->
  (forall (p : loc) (v : pendingAttestation) (sub s : deserializationContext)
          (m : uint64),
     heap w !! p = Some (ObjPending v) ->
     readVarUint sub = ROk (m, s) ->
     m <= 1000 -> N.of_nat (length s) = m ->
     pendingAttestation_decode readVarUint p sub w =
       (Ok (PendingPtr (length (heap w)), []),
        allocated w (ObjPending {| pending_base := pending_base v;
                                   uri := string_of_list_byte s |})) /\
     list_byte_of_string (string_of_list_byte s) = s)
  /\
  (forall (p : loc) (sub rest : deserializationContext) (m : uint64),
     readVarUint sub = ROk (m, rest) ->
     1000 < m ->
     pendingAttestation_decode readVarUint p sub w =
       (Err (ReadError PayloadTooLarge), w))
  /\
  (forall (ctx c1 s : deserializationContext) (payload : list byte) (m : uint64),
     8 <= N.of_nat (length ctx) ->
     take 8 ctx = pendingAttestationTag ->
     readVarBytes readVarUint 0 8192 (drop 8 ctx) = ROk (payload, c1) ->
     readVarUint payload = ROk (m, s) ->
     m <= 1000 -> N.of_nat (length s) = m ->
     let r := ParseAttestation readVarUint ctx w in
     fst r = Ok (PendingPtr (length (heap w)), c1) /\
     deref (snd r) (PendingPtr (length (heap w))) =
       Some (VPending {| pending_base := {| tag := pendingAttestationTag |};
                         uri := string_of_list_byte s |})).
Proof.
  intros Hw.
  assert (Hread : forall sub s m, readVarUint sub = ROk (m, s) -> m <= 1000 ->
            N.of_nat (length s) = m ->
            readVarBytes readVarUint 0 pendingAttestationMaxUriLength sub
            = ROk (s, [])).
  { intros sub s m Hv Hmax Hlen.
    rewrite (readVarBytes_eval _ _ _ _ _ _ Hv); [|lia|exact Hmax].
    rewrite readBytes_ok by lia.
    rewrite <- Hlen, Nat2N.id, take_ge, drop_ge by lia. reflexivity. }
  split; [|split].
  - intros p v sub s m Hp Hv Hmax Hlen. split.
    + rewrite (pendingAttestation_decode_eval _ _ _ _ _ Hp).
      now rewrite (Hread _ _ _ Hv Hmax Hlen).
    + apply list_byte_of_string_of_list_byte.
  - intros p sub rest m Hv Hbig.
    unfold pendingAttestation_decode, bind.
    now rewrite (readVarBytes_too_large _ _ _ _ _ _ Hv Hbig).
  - intros ctx c1 s payload m Hlen Htag Hpay Hv Hmax Hs r. subst r.
    rewrite (ParseAttestation_reads _ _ _ _ _ _ _ (readBytes_tag _ Hlen) Hpay).
    unfold bind. rewrite (rangeAttestations_wellFormed _ _ _ _ _ Hw), Htag.
    rewrite bytes_Equal_refl, decodeMatched_eval. cbn [attestation_decode].
    rewrite (pendingAttestation_decode_eval _ _ _ _ _ (wellFormed_pending _ Hw)).
    unfold newDeserializationContext. rewrite (Hread _ _ _ Hv Hmax Hs).
    cbn [assertEOF fst snd ret].
    split; [reflexivity|]. cbn [deref]. now rewrite deref_allocated.
Qed.

(** The whole of [ParseAttestation] in a well-formed state, by cases on what
    the reader returns. *)
Lemma ParseAttestation_wellFormed (ctx : deserializationContext) (w : world) :
  wellFormed w ->
  ParseAttestation readVarUint ctx w =
    match readBytes attestationTagSize ctx with
    | RErr e => (Err (ReadError e), w)
    | ROk (t, c1) =>
        match readVarBytes readVarUint 0 attestationMaxPayloadSize c1 with
        | RErr e => (Err (ReadError e), w)
        | ROk (attBytes, c2) =>
            if bytes_Equal pendingAttestationTag t then
              match readVarBytes readVarUint 0 pendingAttestationMaxUriLength
                      attBytes with
              | RErr e => (Err (ReadError e), w)
              | ROk (u, rest) =>
                  (if assertEOF rest
                   then Ok (PendingPtr (length (heap w)), c2)
                   else Err errExpectedEOF,
                   allocated w (ObjPending
                     (set_uri pendingPrototype (string_of_list_byte u))))
              end
            else if bytes_Equal bitcoinAttestationTag t then
              match readVarUint attBytes with
              | RErr e => (Err (ReadError e), w)
              | ROk (h, rest) =>
                  (if assertEOF rest
                   then Ok (BitcoinPtr (length (heap w)), c2)
                   else Err errExpectedEOF,
                   allocated w (ObjBitcoin (set_height bitcoinPrototype h)))
              end
            else (Ok (UnknownVal {| unknown_tag := t; bytes := attBytes |}, c2), w)
        end
    end.
Proof.
  intros Hw.
  destruct (readBytes attestationTagSize ctx) as [[t c1]|e] eqn:Ht;
    [|now apply ParseAttestation_tag_error].
  destruct (readVarBytes readVarUint 0 attestationMaxPayloadSize c1)
    as [[attBytes c2]|e] eqn:Hp;
    [|now apply (ParseAttestation_payload_error readVarUint ctx c1 t)].
  rewrite (ParseAttestation_reads _ _ _ _ _ _ _ Ht Hp).
  unfold bind. rewrite (rangeAttestations_wellFormed _ _ _ _ _ Hw).
  unfold newDeserializationContext.
  destruct (bytes_Equal pendingAttestationTag t).
  - rewrite decodeMatched_eval. cbn [attestation_decode].
    rewrite (pendingAttestation_decode_eval _ _ _ _ _ (wellFormed_pending _ Hw)).
    destruct (readVarBytes readVarUint 0 pendingAttestationMaxUriLength attBytes)
      as [[u rest]|e]; [|reflexivity].
    now destruct (assertEOF rest).
  - destruct (bytes_Equal bitcoinAttestationTag t); [|reflexivity].
    rewrite decodeMatched_eval. cbn [attestation_decode].
    rewrite (bitcoinAttestation_decode_eval _ _ _ _ _ (wellFormed_bitcoin _ Hw)).
    destruct (readVarUint attBytes) as [[h rest]|e]; [|reflexivity].
    now destruct (assertEOF rest).
Qed.

Lemma deref_fresh_pending (w : world) (v : pendingAttestation) :
  deref (allocated w (ObjPending v)) (PendingPtr (length (heap w)))
  = Some (VPending v).
Proof. cbn [deref]. now rewrite deref_allocated. Qed.

Lemma deref_fresh_bitcoin (w : world) (v : bitcoinAttestation) :
  deref (allocated w (ObjBitcoin v)) (BitcoinPtr (length (heap w)))
  = Some (VBitcoin v).
Proof. cbn [deref]. now rewrite deref_allocated. Qed.

(** What a caller observes of a decode does not depend on which well-formed
    state the call starts in. *)
Lemma ParseAttestation_observe (ctx : deserializationContext) (w1 w2 : world) :
  wellFormed w1 -> wellFormed w2 ->
  observe (ParseAttestation readVarUint ctx w1)
  = observe (ParseAttestation readVarUint ctx w2).
Proof.
  intros H1 H2.
  rewrite (ParseAttestation_wellFormed ctx w1 H1),
          (ParseAttestation_wellFormed ctx w2 H2).
  destruct (readBytes attestationTagSize ctx) as [[t c1]|e]; [|reflexivity].
  destruct (readVarBytes readVarUint 0 attestationMaxPayloadSize c1)
    as [[attBytes c2]|e]; [|reflexivity].
  destruct (bytes_Equal pendingAttestationTag t).
  - destruct (readVarBytes readVarUint 0 pendingAttestationMaxUriLength attBytes)
      as [[u rest]|e]; [|reflexivity].
    destruct (assertEOF rest); [|reflexivity].
    cbn [observe]. now rewrite !deref_fresh_pending.
  - destruct (bytes_Equal bitcoinAttestationTag t); [|reflexivity].
    destruct (readVarUint attBytes) as [[h rest]|e]; [|reflexivity].
    destruct (assertEOF rest); [|reflexivity].
    cbn [observe]. now rewrite !deref_fresh_bitcoin.
Qed.

Lemma ParseAttestation_preserves (ctx : deserializationContext) (w : world) :
  wellFormed w -> wellFormed (snd (ParseAttestation readVarUint ctx w)).
Proof.
  intros Hw. eapply wellFormed_extends; [exact Hw|].
  apply framed_ParseAttestation.
Qed.

(** A registry that held an [unknownAttestation] would make the first scan
    that reaches it panic: the panicking methods are live in the model. *)
Lemma unknown_in_registry_panics (u : unknownAttestation) (l : list attestation)
    (t attBytes : list byte) (attCtx : deserializationContext) (w : world) :
  rangeAttestations readVarUint (UnknownVal u :: l) t attBytes attCtx w
  = (Panic "not implemented", w).
Proof. reflexivity. Qed.

(** The scan stops at the first prototype that matches. *)
Lemma rangeAttestations_first_match (l1 l2 : list attestation) (a : attestation)
    (t attBytes : list byte) (attCtx : deserializationContext) (w : world) :
  (forall x, In x l1 -> attestation_match x t w = (Ok false, w)) ->
  attestation_match a t w = (Ok true, w) ->
  rangeAttestations readVarUint (l1 ++ a :: l2) t attBytes attCtx w
  = decodeMatched readVarUint a attCtx w.
Proof.
  intros Hl1 Ha. induction l1 as [|x l1 IH]; cbn [app rangeAttestations].
  - unfold bind. now rewrite Ha.
  - unfold bind at 1. rewrite (Hl1 x) by now left.
    apply IH. intros y Hy. apply Hl1. now right.
Qed.

Lemma rangeAttestations_no_match (l : list attestation)
    (t attBytes : list byte) (attCtx : deserializationContext) (w : world) :
  (forall x, In x l -> attestation_match x t w = (Ok false, w)) ->
  rangeAttestations readVarUint l t attBytes attCtx w
  = (Ok (UnknownVal {| unknown_tag := t; bytes := attBytes |}), w).
Proof.
  intros Hl. induction l as [|x l IH]; cbn [rangeAttestations]; [reflexivity|].
  unfold bind at 1. rewrite (Hl x) by now left.
  apply IH. intros y Hy. apply Hl. now right.
Qed.

Lemma pending_match_iff (w : world) (t : list byte) :
  wellFormed w ->
  attestation_match (PendingPtr 0%nat) t w = (Ok true, w)
  <-> t = pendingAttestationTag.
Proof.
  intros Hw. cbn [attestation_match].
  rewrite (pendingAttestation_match_eval _ _ _ _ (wellFormed_pending _ Hw)).
  change (tag (pending_base pendingPrototype)) with pendingAttestationTag.
  split.
  - intros [= H]. symmetry. now apply bytes_Equal_spec.
  - intros ->. now rewrite bytes_Equal_refl.
Qed.

Lemma bitcoin_match_iff (w : world) (t : list byte) :
  wellFormed w ->
  attestation_match (BitcoinPtr 1%nat) t w = (Ok true, w)
  <-> t = bitcoinAttestationTag.
Proof.
  intros Hw. cbn [attestation_match].
  rewrite (bitcoinAttestation_match_eval _ _ _ _ (wellFormed_bitcoin _ Hw)).
  change (tag (bitcoin_base bitcoinPrototype)) with bitcoinAttestationTag.
  split.
  - intros [= H]. symmetry. now apply bytes_Equal_spec.
  - intros ->. now rewrite bytes_Equal_refl.
Qed.

(** C2. When a registered prototype matches the tag and its decode of the
    payload sub-stream succeeds but leaves bytes unread, [ParseAttestation]
    fails with the error of its end-of-payload check (the text built by the
    source is "expected EOF in attCtx") and the decoded attestation is not
    returned; this holds in particular for a bitcoin-tagged payload made of
    an integer followed by more bytes. The error is none of the conditions
    the reader raises. *)
Theorem trailing_payload_bytes_rejected (ctx c1 c2 : deserializationContext)
    (t payload : list byte) (w : world) :
  wellFormed w ->
  readBytes attestationTagSize ctx = ROk (t, c1) ->
  readVarBytes readVarUint 0 attestationMaxPayloadSize c1 = ROk (payload, c2) ->
  (forall (a att : attestation) (rest : deserializationContext) (w' : world),
     In a (attestations w) ->
     attestation_match a t w = (Ok true, w) ->
     attestation_decode readVarUint a (newDeserializationContext payload) w
       = (Ok (att, rest), w') ->
     rest <> [] ->
     ParseAttestation readVarUint ctx w
       = (Err (Errorf "expected EOF in attCtx"), w'))
  /\
  (forall (h : uint64) (rest : deserializationContext),
     t = bitcoinAttestationTag ->
     readVarUint payload = ROk (h, rest) ->
     rest <> [] ->
     fst (ParseAttestation readVarUint ctx w)
       = Err (Errorf "expected EOF in attCtx"))
  /\
  (forall e : readError, Errorf "expected EOF in attCtx" <> ReadError e).
Proof.
  intros Hw Ht Hp. split; [|split].
  - intros a att rest w' Hin Hm Hdec Hrest.
    rewrite (ParseAttestation_reads _ _ _ _ _ _ _ Ht Hp). unfold bind.
    rewrite (rangeAttestations_wellFormed _ _ _ _ _ Hw).
    apply assertEOF_false in Hrest.
    pose proof Hw as [Hreg _]. rewrite Hreg in Hin.
    destruct Hin as [<-|[<-|[]]].
    + apply (pending_match_iff w t Hw) in Hm as ->.
      rewrite bytes_Equal_refl, decodeMatched_eval, Hdec, Hrest. reflexivity.
    + apply (bitcoin_match_iff w t Hw) in Hm as ->.
      change (bytes_Equal pendingAttestationTag bitcoinAttestationTag) with false.
      rewrite bytes_Equal_refl, decodeMatched_eval, Hdec, Hrest. reflexivity.
  - intros h rest -> Hv Hrest. apply assertEOF_false in Hrest.
    rewrite (ParseAttestation_wellFormed _ _ Hw), Ht, Hp.
    change (bytes_Equal pendingAttestationTag bitcoinAttestationTag) with false.
    rewrite bytes_Equal_refl, Hv, Hrest. reflexivity.
  - discriminate.
Qed.

(** C3. A declared payload length above 8192 makes [ParseAttestation] fail
    with the too-large condition in every state, whatever the registry
    holds and before anything is allocated: no prototype has been asked to
    match or decode. And in every call the scan over the registry starts
    only after both reads have succeeded; it is then given the whole
    payload, of at most 8192 bytes, as its sub-stream, and the outer stream
    already stands after the payload. *)
Theorem oversized_payload_rejected :
  (forall (ctx c1 : deserializationContext) (n : uint64) (w : world),
     8 <= N.of_nat (length ctx) ->
     readVarUint (drop 8 ctx) = ROk (n, c1) ->
     8192 < n ->
     ParseAttestation readVarUint ctx w = (Err (ReadError PayloadTooLarge), w))
  /\
  (forall (ctx : deserializationContext) (w : world),
     match readBytes 8 ctx with
     | RErr e => ParseAttestation readVarUint ctx w = (Err (ReadError e), w)
     | ROk (t, c1) =>
         match readVarBytes readVarUint 0 8192 c1 with
         | RErr e => ParseAttestation readVarUint ctx w = (Err (ReadError e), w)
         | ROk (payload, c2) =>
             N.of_nat (length payload) <= 8192 /\
             (exists n, readVarUint c1 = ROk (n, payload ++ c2) /\
                        N.of_nat (length payload) = n) /\
             ParseAttestation readVarUint ctx w =
               bind (rangeAttestations readVarUint (attestations w) t payload
                       (newDeserializationContext payload))
                    (fun att => ret (att, c2)) w
         end
     end).
Proof.
  split.
  - intros ctx c1 n w Hlen Hv Hbig.
    apply (ParseAttestation_payload_error _ _ _ _ _ _ (readBytes_tag _ Hlen)).
    exact (readVarBytes_too_large _ _ _ _ _ _ Hv Hbig).
  - intros ctx w.
    destruct (readBytes 8 ctx) as [[t c1]|e] eqn:Ht;
      [|now apply ParseAttestation_tag_error].
    destruct (readVarBytes readVarUint 0 8192 c1) as [[payload c2]|e] eqn:Hp;
      [|now apply (ParseAttestation_payload_error readVarUint ctx c1 t)].
    destruct (readVarBytes_inv _ _ _ _ _ _ Hp) as (n & c & Hv & _ & Hmax & Hlen & ->).
    split; [lia|]. split; [now exists n|].
    exact (ParseAttestation_reads _ _ _ _ _ _ _ Ht Hp).
Qed.

(** C6. The registry holds the pending prototype first and the bitcoin
    prototype second. A prototype matches a tag exactly when the tag is
    equal, byte for byte and in length, to the prototype's tag.
    [ParseAttestation] selects by that test alone, scanning the registry in
    order: in any state, once the tag and the payload are read, it runs the
    decode of the first registry entry that matches the tag, on the payload,
    whatever entries follow it, and returns the unknown attestation holding
    the tag and the payload when no entry matches. With the package's
    registry that is the pending decode for the pending constant, the
    bitcoin decode for the bitcoin constant, and no decode at all for any
    other tag, so exactly one of the three is selected for each record. *)
Theorem variant_selected_by_exact_tag (w : world) :
  wellFormed w ->
  (attestations w = [PendingPtr 0%nat; BitcoinPtr 1%nat] /\
   heap w !! 0%nat = Some (ObjPending pendingPrototype) /\
   heap w !! 1%nat = Some (ObjBitcoin bitcoinPrototype))
  /\
  (forall (b : baseAttestation) (t : list byte),
     baseAttestation_match b t = true <-> t = tag b)
  /\
  (forall t : list byte,
     (attestation_match (PendingPtr 0%nat) t w = (Ok true, w)
      <-> t = pendingAttestationTag) /\
     (attestation_match (BitcoinPtr 1%nat) t w = (Ok true, w)
      <-> t = bitcoinAttestationTag))
  /\
  (forall (w0 : world) (ctx c1 c2 : deserializationContext)
          (t payload : list byte) (l1 l2 : list attestation) (a : attestation),
     readBytes attestationTagSize ctx = ROk (t, c1) ->
     readVarBytes readVarUint 0 attestationMaxPayloadSize c1 = ROk (payload, c2) ->
     attestations w0 = l1 ++ a :: l2 ->
     (forall x, In x l1 -> attestation_match x t w0 = (Ok false, w0)) ->
     attestation_match a t w0 = (Ok true, w0) ->
     ParseAttestation readVarUint ctx w0 =
       bind (decodeMatched readVarUint a (newDeserializationContext payload))
            (fun att => ret (att, c2)) w0)
  /\
  (forall (w0 : world) (ctx c1 c2 : deserializationContext)
          (t payload : list byte),
     readBytes attestationTagSize ctx = ROk (t, c1) ->
     readVarBytes readVarUint 0 attestationMaxPayloadSize c1 = ROk (payload, c2) ->
     (forall x, In x (attestations w0) ->
        attestation_match x t w0 = (Ok false, w0)) ->
     ParseAttestation readVarUint ctx w0 =
       (Ok (UnknownVal {| unknown_tag := t; bytes := payload |}, c2), w0))
  /\
  (forall (ctx c1 c2 : deserializationContext) (t payload : list byte),
     readBytes attestationTagSize ctx = ROk (t, c1) ->
     readVarBytes readVarUint 0 attestationMaxPayloadSize c1 = ROk (payload, c2) ->
     (t = pendingAttestationTag ->
      ParseAttestation readVarUint ctx w =
        bind (decodeMatched readVarUint (PendingPtr 0%nat)
                (newDeserializationContext payload))
             (fun att => ret (att, c2)) w) /\
     (t = bitcoinAttestationTag ->
      ParseAttestation readVarUint ctx w =
        bind (decodeMatched readVarUint (BitcoinPtr 1%nat)
                (newDeserializationContext payload))
             (fun att => ret (att, c2)) w) /\
     (t <> pendingAttestationTag -> t <> bitcoinAttestationTag ->
      ParseAttestation readVarUint ctx w =
        (Ok (UnknownVal {| unknown_tag := t; bytes := payload |}, c2), w)))
  /\
  (forall (l1 l2 : list attestation) (a : attestation) (t attBytes : list byte)
          (attCtx : deserializationContext),
     (forall x, In x l1 -> attestation_match x t w = (Ok false, w)) ->
     attestation_match a t w = (Ok true, w) ->
     rangeAttestations readVarUint (l1 ++ a :: l2) t attBytes attCtx w
     = decodeMatched readVarUint a attCtx w)
  /\
  (forall (t attBytes : list byte) (attCtx : deserializationContext),
     (t = pendingAttestationTag ->
      rangeAttestations readVarUint (attestations w) t attBytes attCtx w
      = decodeMatched readVarUint (PendingPtr 0%nat) attCtx w) /\
     (t = bitcoinAttestationTag ->
      rangeAttestations readVarUint (attestations w) t attBytes attCtx w
      = decodeMatched readVarUint (BitcoinPtr 1%nat) attCtx w) /\
     (t <> pendingAttestationTag -> t <> bitcoinAttestationTag ->
      rangeAttestations readVarUint (attestations w) t attBytes attCtx w
      = (Ok (UnknownVal {| unknown_tag := t; bytes := attBytes |}), w))).
Proof.
  intros Hw.
  assert (Hscan : forall (t attBytes : list byte) (attCtx : deserializationContext),
     (t = pendingAttestationTag ->
      rangeAttestations readVarUint (attestations w) t attBytes attCtx w
      = decodeMatched readVarUint (PendingPtr 0%nat) attCtx w) /\
     (t = bitcoinAttestationTag ->
      rangeAttestations readVarUint (attestations w) t attBytes attCtx w
      = decodeMatched readVarUint (BitcoinPtr 1%nat) attCtx w) /\
     (t <> pendingAttestationTag -> t <> bitcoinAttestationTag ->
      rangeAttestations readVarUint (attestations w) t attBytes attCtx w
      = (Ok (UnknownVal {| unknown_tag := t; bytes := attBytes |}), w))).
  { intros t attBytes attCtx.
    rewrite (rangeAttestations_wellFormed _ _ _ _ _ Hw). split; [|split].
    - intros ->. now rewrite bytes_Equal_refl.
    - intros ->.
      change (bytes_Equal pendingAttestationTag bitcoinAttestationTag) with false.
      now rewrite bytes_Equal_refl.
    - intros Hp Hb.
      rewrite (bytes_Equal_neq pendingAttestationTag) by congruence.
      now rewrite (bytes_Equal_neq bitcoinAttestationTag) by congruence. }
  split; [|split; [|split; [|split; [|split; [|split; [|split]]]]]].
  - split; [apply Hw|]. split; [now apply wellFormed_pending|].
    now apply wellFormed_bitcoin.
  - intros b t. unfold baseAttestation_match. rewrite bytes_Equal_spec.
    split; congruence.
  - intros t. split; [now apply pending_match_iff|now apply bitcoin_match_iff].
  - intros w0 ctx c1 c2 t payload l1 l2 a Ht Hp Hreg Hl1 Ha.
    rewrite (ParseAttestation_reads _ _ _ _ _ _ _ Ht Hp), Hreg.
    unfold bind at 1. unfold bind at 1.
    now rewrite (rangeAttestations_first_match _ _ _ _ _ _ _ Hl1 Ha).
  - intros w0 ctx c1 c2 t payload Ht Hp Hnone.
    rewrite (ParseAttestation_reads _ _ _ _ _ _ _ Ht Hp). unfold bind.
    now rewrite (rangeAttestations_no_match _ _ _ _ _ Hnone).
  - intros ctx c1 c2 t payload Ht Hp.
    rewrite (ParseAttestation_reads _ _ _ _ _ _ _ Ht Hp).
    destruct (Hscan t payload (newDeserializationContext payload))
      as (Hpen & Hbtc & Hunk).
    split; [|split].
    + intros E. unfold bind at 1. unfold bind at 1. now rewrite (Hpen E).
    + intros E. unfold bind at 1. unfold bind at 1. now rewrite (Hbtc E).
    + intros E1 E2. unfold bind. now rewrite (Hunk E1 E2).
  - intros l1 l2 a t attBytes attCtx. apply rangeAttestations_first_match.
  - exact Hscan.
Qed.

(** C7. A stream with fewer than 8 bytes at the start of a record fails
    with the truncation condition, and so does a stream whose declared
    payload length is at most 8192 and exceeds the bytes that follow it; in
    both cases nothing is allocated or changed. The boundary is exact: the
    tag read fails just when fewer than 8 bytes remain, and the payload read
    of a declared length within the bound fails just when fewer bytes than
    declared follow; a read that succeeds returns a prefix of the stream and
    leaves the rest, and the stream a successful call leaves is a suffix of
    the stream it was given whenever the integer reader, too, leaves a
    suffix of what it was given. *)
Theorem truncated_input_rejected :
  (forall (ctx : deserializationContext) (w : world),
     N.of_nat (length ctx) < 8 ->
     ParseAttestation readVarUint ctx w = (Err (ReadError TruncatedInput), w))
  /\
  (forall (ctx c1 : deserializationContext) (n : uint64) (w : world),
     8 <= N.of_nat (length ctx) ->
     readVarUint (drop 8 ctx) = ROk (n, c1) ->
     n <= 8192 ->
     N.of_nat (length c1) < n ->
     ParseAttestation readVarUint ctx w = (Err (ReadError TruncatedInput), w))
  /\
  (forall (ctx : deserializationContext),
     readBytes attestationTagSize ctx = RErr TruncatedInput
     <-> N.of_nat (length ctx) < 8)
  /\
  (forall (ctx c1 : deserializationContext) (n : uint64),
     readVarUint ctx = ROk (n, c1) ->
     n <= 8192 ->
     (readVarBytes readVarUint 0 attestationMaxPayloadSize ctx
        = RErr TruncatedInput
      <-> N.of_nat (length c1) < n))
  /\
  (forall (k : N) (ctx bs rest : deserializationContext),
     readBytes k ctx = ROk (bs, rest) ->
     ctx = bs ++ rest /\ N.of_nat (length bs) = k)
  /\
  (forall (ctx rest : deserializationContext) (att : attestation) (w : world),
     (forall c v c', readVarUint c = ROk (v, c') -> exists used, c = used ++ c') ->
     fst (ParseAttestation readVarUint ctx w) = Ok (att, rest) ->
     exists used, ctx = used ++ rest).
Proof.
  split; [|split; [|split; [|split; [|split]]]].
  - intros ctx w Hlen. apply ParseAttestation_tag_error.
    now apply readBytes_truncated.
  - intros ctx c1 n w Hlen Hv Hmax Hshort.
    apply (ParseAttestation_payload_error _ _ _ _ _ _ (readBytes_tag _ Hlen)).
    rewrite (readVarBytes_eval _ _ _ _ _ _ Hv); [|lia|exact Hmax].
    now apply readBytes_truncated.
  - intros ctx. unfold readBytes, attestationTagSize.
    destruct (8 <=? N.of_nat (length ctx)) eqn:E.
    + apply N.leb_le in E. split; [discriminate|lia].
    + apply N.leb_gt in E. split; [intros _; exact E|reflexivity].
  - intros ctx c1 n Hv Hmax.
    rewrite (readVarBytes_eval _ _ _ _ _ _ Hv); [|lia|exact Hmax].
    unfold readBytes. destruct (n <=? N.of_nat (length c1)) eqn:E.
    + apply N.leb_le in E. split; [discriminate|lia].
    + apply N.leb_gt in E. split; [intros _; exact E|reflexivity].
  - intros k ctx bs rest H. apply readBytes_length in H as [H1 H2]. now split.
  - intros ctx rest att w Hcursor.
    destruct (readBytes attestationTagSize ctx) as [[t c1]|e] eqn:Ht;
      [|now rewrite (ParseAttestation_tag_error _ _ _ _ Ht)].
    destruct (readVarBytes readVarUint 0 attestationMaxPayloadSize c1)
      as [[payload c2]|e] eqn:Hp;
      [|now rewrite (ParseAttestation_payload_error _ _ _ _ _ _ Ht Hp)].
    rewrite (ParseAttestation_reads _ _ _ _ _ _ _ Ht Hp). unfold bind.
    destruct (rangeAttestations readVarUint (attestations w) t payload
                (newDeserializationContext payload) w) as [[a|e|msg] w'];
      cbn [fst ret]; try discriminate.
    intros [= _ <-].
    apply readBytes_length in Ht as [_ ->].
    destruct (readVarBytes_inv _ _ _ _ _ _ Hp) as (n & c & Hv & _ & _ & _ & ->).
    destruct (Hcursor _ _ _ Hv) as [used ->].
    exists (t ++ used ++ payload). now rewrite <- !app_assoc.
Qed.

(** C8. [ParseAttestation] is a function of the bytes of the stream: two
    runs over the same bytes, started in any two states of the package,
    return the same attestation value with the same stream position, or
    fail with the same error. A run changes nothing a later run reads: the
    registry and every object of the heap are as before, the only new
    object being the returned attestation, so running again over the same
    bytes gives the same result. *)
Theorem decoding_deterministic (ctx : deserializationContext) (w1 w2 : world) :
  wellFormed w1 -> wellFormed w2 ->
  observe (ParseAttestation readVarUint ctx w1)
    = observe (ParseAttestation readVarUint ctx w2)
  /\
  extends w1 (snd (ParseAttestation readVarUint ctx w1))
  /\
  observe (ParseAttestation readVarUint ctx
             (snd (ParseAttestation readVarUint ctx w1)))
    = observe (ParseAttestation readVarUint ctx w1).
Proof.
  intros H1 H2. split; [|split].
  - now apply ParseAttestation_observe.
  - apply framed_ParseAttestation.
  - apply ParseAttestation_observe; [|exact H1].
    now apply ParseAttestation_preserves.
Qed.

(** C9. In every state of the package the registry holds the pending and
    the bitcoin prototype and no [unknownAttestation]; [ParseAttestation]
    calls [match] and [decode] on registry entries only, so for every input
    it returns or fails without a panic, and in particular the panicking
    methods of [unknownAttestation] are never run. The state it ends in is
    again a state of the package, so this holds for every later call. *)
Theorem unknown_methods_unreachable (ctx : deserializationContext) (w : world) :
  wellFormed w ->
  (forall a, In a (attestations w) ->
     a = PendingPtr 0%nat \/ a = BitcoinPtr 1%nat)
  /\
  (forall msg, fst (ParseAttestation readVarUint ctx w) <> Panic msg)
  /\
  wellFormed (snd (ParseAttestation readVarUint ctx w)).
Proof.
  intros Hw. split; [|split].
  - intros a Hin. destruct Hw as [Hreg _]. rewrite Hreg in Hin.
    destruct Hin as [<-|[<-|[]]]; [now left|now right].
  - intros msg. rewrite (ParseAttestation_wellFormed _ _ Hw).
    destruct (readBytes attestationTagSize ctx) as [[t c1]|e]; [|discriminate].
    destruct (readVarBytes readVarUint 0 attestationMaxPayloadSize c1)
      as [[attBytes c2]|e]; [|discriminate].
    destruct (bytes_Equal pendingAttestationTag t).
    + destruct (readVarBytes readVarUint 0 pendingAttestationMaxUriLength attBytes)
        as [[u rest]|e]; [|discriminate].
      now destruct (assertEOF rest).
    + destruct (bytes_Equal bitcoinAttestationTag t); [|discriminate].
      destruct (readVarUint attBytes) as [[h rest]|e]; [|discriminate].
      now destruct (assertEOF rest).
  - now apply ParseAttestation_preserves.
Qed.

(** C10. [ParseAttestation] writes to no existing object and does not assign
    the registry, in any state: every object of the heap is found unchanged
    after the call. In a state of the package the pending prototype therefore
    still has the pending tag and an empty [uri], the bitcoin prototype the
    bitcoin tag and height 0, the registry is the same list, a pointer the
    call returns is to an object allocated by the call and not to a
    prototype, and every later call behaves as it would have before. *)
Theorem prototypes_never_mutated :
  (forall (ctx : deserializationContext) (w : world),
     attestations (snd (ParseAttestation readVarUint ctx w)) = attestations w /\
     (forall (l : loc) (o : object),
        heap w !! l = Some o ->
        heap (snd (ParseAttestation readVarUint ctx w)) !! l = Some o))
  /\
  (forall (ctx : deserializationContext) (w : world),
     wellFormed w ->
     let w' := snd (ParseAttestation readVarUint ctx w) in
     heap w' !! 0%nat =
       Some (ObjPending {| pending_base := {| tag := pendingAttestationTag |};
                           uri := EmptyString |}) /\
     heap w' !! 1%nat =
       Some (ObjBitcoin {| bitcoin_base := {| tag := bitcoinAttestationTag |};
                           height := 0 |}) /\
     attestations w' = [PendingPtr 0%nat; BitcoinPtr 1%nat] /\
     (forall (a : attestation) (c : deserializationContext),
        fst (ParseAttestation readVarUint ctx w) = Ok (a, c) ->
        match a with
        | PendingPtr l | BitcoinPtr l => l = length (heap w) /\ heap w !! l = None
        | UnknownVal _ => True
        end) /\
     (forall ctx2 : deserializationContext,
        observe (ParseAttestation readVarUint ctx2 w')
        = observe (ParseAttestation readVarUint ctx2 w))).
Proof.
  split.
  - intros ctx w. destruct (framed_ParseAttestation readVarUint ctx w) as [Hreg Hpre].
    split; [exact Hreg|]. intros l o Hl.
    eapply prefix_lookup_Some; eassumption.
  - intros ctx w Hw w'.
    assert (Hw' : wellFormed w') by now apply ParseAttestation_preserves.
    split; [now apply (wellFormed_pending w')|].
    split; [now apply (wellFormed_bitcoin w')|].
    split; [apply Hw'|]. split.
    + intros a c. rewrite (ParseAttestation_wellFormed _ _ Hw).
      destruct (readBytes attestationTagSize ctx) as [[t c1]|e]; [|discriminate].
      destruct (readVarBytes readVarUint 0 attestationMaxPayloadSize c1)
        as [[attBytes c2]|e]; [|discriminate].
      destruct (bytes_Equal pendingAttestationTag t).
      * destruct (readVarBytes readVarUint 0 pendingAttestationMaxUriLength attBytes)
          as [[u rest]|e]; [|discriminate].
        destruct (assertEOF rest); [|discriminate].
        intros [= <- <-]. split; [reflexivity|]. now apply lookup_ge_None.
      * destruct (bytes_Equal bitcoinAttestationTag t).
        -- destruct (readVarUint attBytes) as [[h rest]|e]; [|discriminate].
           destruct (assertEOF rest); [|discriminate].
           intros [= <- <-]. split; [reflexivity|]. now apply lookup_ge_None.
        -- now intros [= <- <-].
    + intros ctx2. now apply ParseAttestation_observe.
Qed.

End Decoding.

(** ** The decoder on concrete records, with the [leb128] integer reader *)

Lemma leb128_from_suffix (ctx rest : deserializationContext) (shift val : N)
    (v : uint64) :
  leb128_from shift val ctx = ROk (v, rest) ->
  (exists used, ctx = used ++ rest) /\ v < 2 ^ 64.
Proof.
  revert shift val. induction ctx as [|b ctx IH]; intros shift val; simpl;
    [discriminate|].
  destruct (N.testbit (Byte.to_N b) 7).
  - intros H. destruct (IH _ _ H) as [[used ->] Hv].
    split; [now exists (b :: used)|exact Hv].
  - destruct (_ <? 2 ^ 64) eqn:E; [|discriminate].
    intros [= <- <-]. apply N.ltb_lt in E. split; [now exists [b]|exact E].
Qed.

(** The scenarios of the specification (section 8). *)
Example scenario_bitcoin_1000 :
  observe (ParseAttestation leb128 (mustDecodeHex "0588960d73d7190102e807") initWorld)
  = Ok (Some (VBitcoin {| bitcoin_base := {| tag := bitcoinAttestationTag |};
                          height := 1000 |}), []).
Proof. vm_compute. reflexivity. Qed.

Example scenario_unknown_abc :
  observe (ParseAttestation leb128 (mustDecodeHex "ffffffffffffffff03616263") initWorld)
  = Ok (Some (VUnknown {| unknown_tag := mustDecodeHex "ffffffffffffffff";
                          bytes := list_byte_of_string "abc" |}), []).
Proof. vm_compute. reflexivity. Qed.

Example bitcoin_height_zero :
  observe (ParseAttestation leb128 (mustDecodeHex "0588960d73d719010100") initWorld)
  = Ok (Some (VBitcoin {| bitcoin_base := {| tag := bitcoinAttestationTag |};
                          height := 0 |}), []).
Proof. vm_compute. reflexivity. Qed.

Example bitcoin_height_max :
  observe (ParseAttestation leb128
             (mustDecodeHex "0588960d73d719010affffffffffffffffff01") initWorld)
  = Ok (Some (VBitcoin {| bitcoin_base := {| tag := bitcoinAttestationTag |};
                          height := 2 ^ 64 - 1 |}), []).
Proof. vm_compute. reflexivity. Qed.

Example pending_uri_abc :
  observe (ParseAttestation leb128 (mustDecodeHex "83dfe30d2ef90c8e0403616263") initWorld)
  = Ok (Some (VPending {| pending_base := {| tag := pendingAttestationTag |};
                          uri := "abc" |}), []).
Proof. vm_compute. reflexivity. Qed.

Lemma unknown_tag_preserved_witness :
  ParseAttestation leb128 (mustDecodeHex "ffffffffffffffff03616263aa") initWorld
  = (Ok (UnknownVal {| unknown_tag := mustDecodeHex "ffffffffffffffff";
                       bytes := mustDecodeHex "616263" |},
         mustDecodeHex "aa"), initWorld).
Proof.
  apply (unknown_tag_preserved leb128
           (mustDecodeHex "ffffffffffffffff03616263aa")
           (mustDecodeHex "616263aa") 3 initWorld).
  - exact wellFormed_initWorld.
  - vm_compute. discriminate.
  - vm_compute. discriminate.
  - vm_compute. discriminate.
  - reflexivity.
  - vm_compute. discriminate.
  - vm_compute. discriminate.
Defined.

Lemma trailing_payload_bytes_rejected_witness :
  fst (ParseAttestation leb128 (mustDecodeHex "0588960d73d7190103e80700") initWorld)
  = Err (Errorf "expected EOF in attCtx").
Proof.
  apply (proj1 (proj2 (trailing_payload_bytes_rejected leb128
           (mustDecodeHex "0588960d73d7190103e80700")
           (mustDecodeHex "03e80700") [] bitcoinAttestationTag
           (mustDecodeHex "e80700") initWorld
           wellFormed_initWorld eq_refl eq_refl)) 1000 (mustDecodeHex "00")).
  - reflexivity.
  - reflexivity.
  - discriminate.
Defined.

Lemma oversized_payload_rejected_witness :
  ParseAttestation leb128 (mustDecodeHex "ffffffffffffffff8140") initWorld
  = (Err (ReadError PayloadTooLarge), initWorld).
Proof.
  apply (proj1 (oversized_payload_rejected leb128)
           (mustDecodeHex "ffffffffffffffff8140") [] 8193 initWorld).
  - vm_compute. discriminate.
  - reflexivity.
  - reflexivity.
Defined.

Lemma pending_uri_decoded_witness :
  (let r := ParseAttestation leb128
              (mustDecodeHex "83dfe30d2ef90c8e0403616263") initWorld in
   fst r = Ok (PendingPtr 2%nat, []) /\
   deref (snd r) (PendingPtr 2%nat) =
     Some (VPending {| pending_base := {| tag := pendingAttestationTag |};
                       uri := "abc" |}))
  /\
  pendingAttestation_decode leb128 0%nat (mustDecodeHex "e907") initWorld
  = (Err (ReadError PayloadTooLarge), initWorld).
Proof.
  pose proof (pending_uri_decoded leb128 initWorld wellFormed_initWorld)
    as (_ & Hbig & Hrec).
  split.
  - apply (Hrec (mustDecodeHex "83dfe30d2ef90c8e0403616263") []
             (mustDecodeHex "616263") (mustDecodeHex "03616263") 3).
    + vm_compute. discriminate.
    + reflexivity.
    + reflexivity.
    + reflexivity.
    + vm_compute. discriminate.
    + reflexivity.
  - apply (Hbig 0%nat (mustDecodeHex "e907") [] 1001).
    + reflexivity.
    + reflexivity.
Defined.

Lemma bitcoin_height_decoded_witness :
  let r := ParseAttestation leb128
             (mustDecodeHex "0588960d73d7190102e807") initWorld in
  fst r = Ok (BitcoinPtr 2%nat, []) /\
  deref (snd r) (BitcoinPtr 2%nat) =
    Some (VBitcoin {| bitcoin_base := {| tag := bitcoinAttestationTag |};
                      height := 1000 |}).
Proof.
  apply (proj2 (bitcoin_height_decoded leb128 initWorld wellFormed_initWorld)
           (mustDecodeHex "0588960d73d7190102e807") []
           (mustDecodeHex "e807") 1000).
  - vm_compute. discriminate.
  - reflexivity.
  - reflexivity.
  - reflexivity.
Defined.

Lemma variant_selected_by_exact_tag_witness :
  ParseAttestation leb128 (mustDecodeHex "83dfe30d2ef90c8e0403616263")
    collidingWorld
  = (Ok (PendingPtr 2%nat, []),
     allocated collidingWorld
       (ObjPending {| pending_base := {| tag := pendingAttestationTag |};
                      uri := "abc" |}))
  /\
  ParseAttestation leb128 (mustDecodeHex "0588960d73d7190102e807") initWorld
  = (Ok (BitcoinPtr 2%nat, []),
     allocated initWorld
       (ObjBitcoin {| bitcoin_base := {| tag := bitcoinAttestationTag |};
                      height := 1000 |}))
  /\
  ParseAttestation leb128 (mustDecodeHex "ffffffffffffffff03616263") initWorld
  = (Ok (UnknownVal {| unknown_tag := mustDecodeHex "ffffffffffffffff";
                       bytes := mustDecodeHex "616263" |}, []), initWorld).
Proof.
  pose proof (variant_selected_by_exact_tag leb128 initWorld wellFormed_initWorld)
    as (_ & _ & _ & Hfirst & _ & Hpkg & _).
  split; [|split].
  - eapply eq_trans.
    + apply (Hfirst collidingWorld
               (mustDecodeHex "83dfe30d2ef90c8e0403616263")
               (mustDecodeHex "0403616263") [] pendingAttestationTag
               (mustDecodeHex "03616263") [] [BitcoinPtr 1%nat] (PendingPtr 0%nat)).
      * reflexivity.
      * reflexivity.
      * reflexivity.
      * intros x [].
      * reflexivity.
    + reflexivity.
  - eapply eq_trans.
    + apply (proj1 (proj2 (Hpkg (mustDecodeHex "0588960d73d7190102e807")
               (mustDecodeHex "02e807") [] bitcoinAttestationTag
               (mustDecodeHex "e807") eq_refl eq_refl))).
      reflexivity.
    + reflexivity.
  - apply (proj2 (proj2 (Hpkg (mustDecodeHex "ffffffffffffffff03616263")
             (mustDecodeHex "03616263") [] (mustDecodeHex "ffffffffffffffff")
             (mustDecodeHex "616263") eq_refl eq_refl))).
    + discriminate.
    + discriminate.
Defined.

Lemma truncated_input_rejected_witness :
  ParseAttestation leb128 (mustDecodeHex "0588960d73d719") initWorld
  = (Err (ReadError TruncatedInput), initWorld)
  /\
  ParseAttestation leb128 (mustDecodeHex "0588960d73d7190105616263") initWorld
  = (Err (ReadError TruncatedInput), initWorld)
  /\
  exists used, mustDecodeHex "ffffffffffffffff03616263aa" = used ++ mustDecodeHex "aa".
Proof.
  pose proof (truncated_input_rejected leb128) as (Htag & Hpay & _ & _ & _ & Hsuf).
  split; [|split].
  - apply Htag. vm_compute. reflexivity.
  - apply (Hpay (mustDecodeHex "0588960d73d7190105616263")
             (mustDecodeHex "616263") 5 initWorld).
    + vm_compute. discriminate.
    + reflexivity.
    + vm_compute. discriminate.
    + vm_compute. reflexivity.
  - apply (Hsuf (mustDecodeHex "ffffffffffffffff03616263aa") (mustDecodeHex "aa")
             (UnknownVal {| unknown_tag := mustDecodeHex "ffffffffffffffff";
                            bytes := mustDecodeHex "616263" |}) initWorld).
    + intros c v c' H. exact (proj1 (leb128_from_suffix _ _ _ _ _ H)).
    + reflexivity.
Defined.

(** A stream that declares 8193 payload bytes and holds none of them: the
    declared length exceeds the bytes available, and the call fails with the
    too-large condition, not with the truncation condition. *)
Lemma truncation_not_reported_above_bound :
  8 <= N.of_nat (length (mustDecodeHex "ffffffffffffffff8140")) /\
  leb128 (drop 8 (mustDecodeHex "ffffffffffffffff8140")) = ROk (8193, []) /\
  N.of_nat (length (@nil byte)) < 8193 /\
  fst (ParseAttestation leb128 (mustDecodeHex "ffffffffffffffff8140") initWorld)
    = Err (ReadError PayloadTooLarge) /\
  fst (ParseAttestation leb128 (mustDecodeHex "ffffffffffffffff8140") initWorld)
    <> Err (ReadError TruncatedInput).
Proof.
  repeat split; try reflexivity; vm_compute; discriminate.
Qed.

Lemma decoding_deterministic_witness :
  let ctx := mustDecodeHex "0588960d73d7190102e807" in
  let w2 := snd (ParseAttestation leb128
                   (mustDecodeHex "83dfe30d2ef90c8e0403616263") initWorld) in
  observe (ParseAttestation leb128 ctx initWorld)
    = observe (ParseAttestation leb128 ctx w2).
Proof.
  intros ctx w2.
  apply (decoding_deterministic leb128 ctx initWorld w2).
  - exact wellFormed_initWorld.
  - split; [reflexivity|]. eexists. reflexivity.
Defined.

Lemma unknown_methods_unreachable_witness :
  fst (ParseAttestation leb128 (mustDecodeHex "ffffffffffffffff03616263") initWorld)
  <> Panic "not implemented".
Proof.
  apply (proj1 (proj2 (unknown_methods_unreachable leb128
           (mustDecodeHex "ffffffffffffffff03616263") initWorld
           wellFormed_initWorld))).
Defined.

Lemma prototypes_never_mutated_witness :
  heap (snd (ParseAttestation leb128
               (mustDecodeHex "83dfe30d2ef90c8e0403616263") initWorld)) !! 0%nat =
    Some (ObjPending {| pending_base := {| tag := pendingAttestationTag |};
                        uri := EmptyString |}) /\
  heap (snd (ParseAttestation leb128
               (mustDecodeHex "83dfe30d2ef90c8e0403616263") initWorld)) !! 1%nat =
    Some (ObjBitcoin {| bitcoin_base := {| tag := bitcoinAttestationTag |};
                        height := 0 |}) /\
  attestations (snd (ParseAttestation leb128
                  (mustDecodeHex "83dfe30d2ef90c8e0403616263") initWorld))
    = [PendingPtr 0%nat; BitcoinPtr 1%nat].
Proof.
  pose proof (proj2 (prototypes_never_mutated leb128)
                (mustDecodeHex "83dfe30d2ef90c8e0403616263") initWorld
                wellFormed_initWorld) as (Hp & Hb & Hreg & _).
  split; [exact Hp|]. split; [exact Hb|exact Hreg].
Defined.

(** * Further properties of the decoder *)

Lemma readBytes_tag_inv (ctx c1 : deserializationContext) (t : list byte) :
  readBytes attestationTagSize ctx = ROk (t, c1) ->
  8 <= N.of_nat (length ctx) /\ t = take 8 ctx /\ c1 = drop 8 ctx.
Proof.
  unfold readBytes, attestationTagSize.
  destruct (8 <=? N.of_nat (length ctx)) eqn:E; [|discriminate].
  intros [= <- <-]. apply N.leb_le in E. now split.
Qed.

Lemma readBytes_tag_error (ctx : deserializationContext) (e : readError) :
  readBytes attestationTagSize ctx = RErr e ->
  e = TruncatedInput /\ N.of_nat (length ctx) < 8.
Proof.
  unfold readBytes, attestationTagSize.
  destruct (8 <=? N.of_nat (length ctx)) eqn:E; [discriminate|].
  intros [= <-]. apply N.leb_gt in E. now split.
Qed.

Lemma readBytes_app (n : N) (ctx extra : deserializationContext) :
  n <= N.of_nat (length ctx) ->
  readBytes n (ctx ++ extra)
  = ROk (take (N.to_nat n) ctx, drop (N.to_nat n) ctx ++ extra).
Proof.
  intros H. unfold readBytes. rewrite length_app.
  assert (E : (n <=? N.of_nat (length ctx + length extra)) = true)
    by (apply N.leb_le; lia).
  rewrite E, take_app_le, drop_app_le by lia. reflexivity.
Qed.

Lemma attestation_match_state (a : attestation) (t : list byte) (w : world) :
  snd (attestation_match a t w) = w.
Proof.
  destruct a as [p|b|u]; cbn [attestation_match]; [| |reflexivity].
  - unfold pendingAttestation_match, bind, loadPending.
    now destruct (heap w !! p) as [[v|v]|].
  - unfold bitcoinAttestation_match, bind, loadBitcoin.
    now destruct (heap w !! b) as [[v|v]|].
Qed.

Lemma attestation_match_valid (a : attestation) (t : list byte) (w : world) :
  validPrototype w a -> exists m, attestation_match a t w = (Ok m, w).
Proof.
  destruct a as [p|b|u]; cbn [validPrototype attestation_match].
  - intros [v Hv]. rewrite (pendingAttestation_match_eval _ _ _ _ Hv). eauto.
  - intros [v Hv]. rewrite (bitcoinAttestation_match_eval _ _ _ _ Hv). eauto.
  - intros [].
Qed.

Section Outcomes.

Variable readVarUint : reader uint64.

(** X1. An error of the matched variant's decode is the error of
    [ParseAttestation]: when a registry entry matches the tag and its decode
    of the payload fails, the call fails with that same error, no later
    prototype is tried and the unknown fallback is not taken. In particular
    a pending-tagged record whose payload the bounded read rejects, and a
    bitcoin-tagged record whose payload the integer reader rejects, fail
    with the reader's error and leave the state as it was. *)
Theorem decode_error_propagated (ctx c1 c2 : deserializationContext)
    (t payload : list byte) (w : world) :
  wellFormed w ->
  readBytes attestationTagSize ctx = ROk (t, c1) ->
  readVarBytes readVarUint 0 attestationMaxPayloadSize c1 = ROk (payload, c2) ->
  (forall (a : attestation) (e : error) (w' : world),
     In a (attestations w) ->
     attestation_match a t w = (Ok true, w) ->
     attestation_decode readVarUint a (newDeserializationContext payload) w
       = (Err e, w') ->
     ParseAttestation readVarUint ctx w = (Err e, w'))
  /\
  (forall e : readError,
     t = pendingAttestationTag ->
     readVarBytes readVarUint 0 pendingAttestationMaxUriLength payload = RErr e ->
     ParseAttestation readVarUint ctx w = (Err (ReadError e), w))
  /\
  (forall e : readError,
     t = bitcoinAttestationTag ->
     readVarUint payload = RErr e ->
     ParseAttestation readVarUint ctx w = (Err (ReadError e), w)).
Proof.
  intros Hw Ht Hp. split; [|split].
  - intros a e w' Hin Hm Hdec.
    rewrite (ParseAttestation_reads _ _ _ _ _ _ _ Ht Hp). unfold bind.
    rewrite (rangeAttestations_wellFormed _ _ _ _ _ Hw).
    pose proof Hw as [Hreg _]. rewrite Hreg in Hin.
    destruct Hin as [<-|[<-|[]]].
    + apply (pending_match_iff w t Hw) in Hm as ->.
      rewrite bytes_Equal_refl, decodeMatched_eval, Hdec. reflexivity.
    + apply (bitcoin_match_iff w t Hw) in Hm as ->.
      change (bytes_Equal pendingAttestationTag bitcoinAttestationTag) with false.
      rewrite bytes_Equal_refl, decodeMatched_eval, Hdec. reflexivity.
  - intros e -> He.
    rewrite (ParseAttestation_wellFormed _ _ _ Hw), Ht, Hp.
    now rewrite bytes_Equal_refl, He.
  - intros e -> He.
    rewrite (ParseAttestation_wellFormed _ _ _ Hw), Ht, Hp.
    change (bytes_Equal pendingAttestationTag bitcoinAttestationTag) with false.
    now rewrite bytes_Equal_refl, He.
Qed.

(** X2. Every success of [ParseAttestation] comes from a well-framed record
    of the matching kind. If the call returns an attestation, the stream held
    8 tag bytes and a payload within the bound, the stream returned is the
    one after the payload, and: an [unknownAttestation] is returned only for
    a tag that is neither constant, holds that tag and the payload, and
    the registry and the attestation structs are as before; a
    [*pendingAttestation] only for the pending
    constant and a payload that is exactly one bounded byte sequence, and it
    is the fresh copy of the prototype holding it; a [*bitcoinAttestation]
    only for the bitcoin constant and a payload that is exactly one integer,
    and it is the fresh copy holding it. *)
Theorem success_inverted (ctx rest : deserializationContext) (a : attestation)
    (w w' : world) :
  wellFormed w ->
  ParseAttestation readVarUint ctx w = (Ok (a, rest), w') ->
  8 <= N.of_nat (length ctx) /\
  exists payload : list byte,
    readVarBytes readVarUint 0 8192 (drop 8 ctx) = ROk (payload, rest) /\
    match a with
    | UnknownVal u =>
        u = {| unknown_tag := take 8 ctx; bytes := payload |} /\
        take 8 ctx <> pendingAttestationTag /\
        take 8 ctx <> bitcoinAttestationTag /\
        w' = w
    | PendingPtr l =>
        take 8 ctx = pendingAttestationTag /\
        l = length (heap w) /\
        exists s, readVarBytes readVarUint 0 1000 payload = ROk (s, []) /\
          w' = allocated w (ObjPending
                 {| pending_base := {| tag := pendingAttestationTag |};
                    uri := string_of_list_byte s |})
    | BitcoinPtr l =>
        take 8 ctx = bitcoinAttestationTag /\
        l = length (heap w) /\
        exists h, readVarUint payload = ROk (h, []) /\
          w' = allocated w (ObjBitcoin
                 {| bitcoin_base := {| tag := bitcoinAttestationTag |};
                    height := h |})
    end.
Proof.
  intros Hw. rewrite (ParseAttestation_wellFormed _ _ _ Hw).
  destruct (readBytes attestationTagSize ctx) as [[t c1]|e] eqn:Ht; [|discriminate].
  apply readBytes_tag_inv in Ht as (Hlen & -> & ->).
  destruct (readVarBytes readVarUint 0 attestationMaxPayloadSize (drop 8 ctx))
    as [[payload c2]|e] eqn:Hp; [|discriminate].
  destruct (bytes_Equal pendingAttestationTag (take 8 ctx)) eqn:Ep.
  - apply bytes_Equal_spec in Ep.
    destruct (readVarBytes readVarUint 0 pendingAttestationMaxUriLength payload)
      as [[s r]|e] eqn:Hs; [|discriminate].
    destruct r as [|x r]; cbn [assertEOF]; [|discriminate].
    intros [= <- <- <-]. split; [exact Hlen|]. exists payload.
    split; [exact Hp|]. split; [now symmetry|]. split; [reflexivity|].
    exists s. split; [exact Hs|reflexivity].
  - destruct (bytes_Equal bitcoinAttestationTag (take 8 ctx)) eqn:Eb.
    + apply bytes_Equal_spec in Eb.
      destruct (readVarUint payload) as [[h r]|e] eqn:Hh; [|discriminate].
      destruct r as [|x r]; cbn [assertEOF]; [|discriminate].
      intros [= <- <- <-]. split; [exact Hlen|]. exists payload.
      split; [exact Hp|]. split; [now symmetry|]. split; [reflexivity|].
      exists h. split; [exact Hh|reflexivity].
    + intros [= <- <- <-]. split; [exact Hlen|]. exists payload.
      split; [exact Hp|]. split; [reflexivity|].
      split; [|split; [|reflexivity]]; intros E; rewrite <- E in *;
        rewrite bytes_Equal_refl in *; discriminate.
Qed.

(** X3. Size invariants of a decoded attestation. Whatever the input, the
    value [ParseAttestation] returns has a tag of exactly 8 bytes, equal to
    the first 8 bytes of the stream; the payload kept by an
    [unknownAttestation] has at most 8192 bytes and the [uri] of a
    [pendingAttestation] at most 1000 bytes. *)
Theorem decoded_sizes_bounded (ctx rest : deserializationContext)
    (a : attestation) (w : world) :
  wellFormed w ->
  fst (ParseAttestation readVarUint ctx w) = Ok (a, rest) ->
  match deref (snd (ParseAttestation readVarUint ctx w)) a with
  | Some (VPending v) =>
      tag (pending_base v) = take 8 ctx /\
      length (tag (pending_base v)) = 8%nat /\
      N.of_nat (length (list_byte_of_string (uri v))) <= 1000
  | Some (VBitcoin v) =>
      tag (bitcoin_base v) = take 8 ctx /\
      length (tag (bitcoin_base v)) = 8%nat
  | Some (VUnknown u) =>
      unknown_tag u = take 8 ctx /\
      length (unknown_tag u) = 8%nat /\
      N.of_nat (length (bytes u)) <= 8192
  | None => False
  end.
Proof.
  intros Hw. rewrite (ParseAttestation_wellFormed _ _ _ Hw).
  destruct (readBytes attestationTagSize ctx) as [[t c1]|e] eqn:Ht; [|discriminate].
  apply readBytes_tag_inv in Ht as (Hlen & -> & ->).
  assert (Htag : length (take 8 ctx) = 8%nat) by (rewrite length_take; lia).
  destruct (readVarBytes readVarUint 0 attestationMaxPayloadSize (drop 8 ctx))
    as [[payload c2]|e] eqn:Hp; [|discriminate].
  destruct (bytes_Equal pendingAttestationTag (take 8 ctx)) eqn:Ep.
  - apply bytes_Equal_spec in Ep.
    destruct (readVarBytes readVarUint 0 pendingAttestationMaxUriLength payload)
      as [[s r]|e] eqn:Hs; [|discriminate].
    destruct (assertEOF r); cbn [fst snd]; [|discriminate].
    intros [= <- <-]. rewrite deref_fresh_pending. cbn [set_uri uri pending_base].
    split; [exact Ep|]. split; [reflexivity|].
    rewrite list_byte_of_string_of_list_byte.
    destruct (readVarBytes_inv _ _ _ _ _ _ Hs) as (n & c & _ & _ & Hmax & Hn & _).
    unfold pendingAttestationMaxUriLength in Hmax. lia.
  - destruct (bytes_Equal bitcoinAttestationTag (take 8 ctx)) eqn:Eb.
    + apply bytes_Equal_spec in Eb.
      destruct (readVarUint payload) as [[h r]|e]; [|discriminate].
      destruct (assertEOF r); cbn [fst snd]; [|discriminate].
      intros [= <- <-]. rewrite deref_fresh_bitcoin.
      cbn [set_height bitcoin_base]. split; [exact Eb|reflexivity].
    + cbn [fst snd]. intros [= <- <-]. cbn [deref unknown_tag bytes].
      split; [reflexivity|]. split; [exact Htag|].
      destruct (readVarBytes_inv _ _ _ _ _ _ Hp) as (n & c & _ & _ & Hmax & Hn & _).
      unfold attestationMaxPayloadSize in Hmax. lia.
Qed.

(** X4. Every failure of [ParseAttestation] is an error of the reader,
    raised with the state unchanged, or the end-of-payload error; the latter
    is returned only for a record with a registered tag whose decode
    succeeded and left payload bytes unread. A record with an unregistered
    tag can thus fail only in the two reads that frame it. *)
Theorem failure_inverted (ctx : deserializationContext) (e : error) (w : world) :
  wellFormed w ->
  fst (ParseAttestation readVarUint ctx w) = Err e ->
  ((exists re, e = ReadError re) /\ snd (ParseAttestation readVarUint ctx w) = w)
  \/
  (e = Errorf "expected EOF in attCtx" /\
   8 <= N.of_nat (length ctx) /\
   exists (payload : list byte) (c2 r : deserializationContext),
     readVarBytes readVarUint 0 8192 (drop 8 ctx) = ROk (payload, c2) /\
     r <> [] /\
     ((take 8 ctx = pendingAttestationTag /\
       exists s, readVarBytes readVarUint 0 1000 payload = ROk (s, r))
      \/
      (take 8 ctx = bitcoinAttestationTag /\
       exists h, readVarUint payload = ROk (h, r)))).
Proof.
  intros Hw. rewrite (ParseAttestation_wellFormed _ _ _ Hw).
  destruct (readBytes attestationTagSize ctx) as [[t c1]|re] eqn:Ht;
    [|intros [= <-]; left; eauto].
  apply readBytes_tag_inv in Ht as (Hlen & -> & ->).
  destruct (readVarBytes readVarUint 0 attestationMaxPayloadSize (drop 8 ctx))
    as [[payload c2]|re] eqn:Hp; [|intros [= <-]; left; eauto].
  destruct (bytes_Equal pendingAttestationTag (take 8 ctx)) eqn:Ep.
  - apply bytes_Equal_spec in Ep.
    destruct (readVarBytes readVarUint 0 pendingAttestationMaxUriLength payload)
      as [[s r]|re] eqn:Hs; [|intros [= <-]; left; eauto].
    destruct r as [|x r]; cbn [assertEOF fst]; [discriminate|].
    intros [= <-]. right. split; [reflexivity|]. split; [exact Hlen|].
    exists payload, c2, (x :: r). split; [exact Hp|]. split; [discriminate|].
    left. split; [now symmetry|]. now exists s.
  - destruct (bytes_Equal bitcoinAttestationTag (take 8 ctx)) eqn:Eb;
      [|discriminate].
    apply bytes_Equal_spec in Eb.
    destruct (readVarUint payload) as [[h r]|re] eqn:Hh;
      [|intros [= <-]; left; eauto].
    destruct r as [|x r]; cbn [assertEOF fst]; [discriminate|].
    intros [= <-]. right. split; [reflexivity|]. split; [exact Hlen|].
    exists payload, c2, (x :: r). split; [exact Hp|]. split; [discriminate|].
    right. split; [now symmetry|]. now exists h.
Qed.

End Outcomes.

(** ** Records followed by other bytes *)

Section Framing.

Variable readVarUint : reader uint64.
Hypothesis readVarUint_front : readsFront readVarUint.

Lemma readVarBytes_app (minLen maxLen : N) (ctx rest extra : deserializationContext)
    (bs : list byte) :
  readVarBytes readVarUint minLen maxLen ctx = ROk (bs, rest) ->
  readVarBytes readVarUint minLen maxLen (ctx ++ extra) = ROk (bs, rest ++ extra).
Proof.
  intros H.
  destruct (readVarBytes_inv _ _ _ _ _ _ H) as (n & c & Hv & Hmin & Hmax & Hn & ->).
  rewrite (readVarBytes_eval _ _ _ _ _ _ (readVarUint_front _ _ extra _ Hv) Hmin Hmax).
  rewrite readBytes_app by (rewrite length_app; lia).
  rewrite <- Hn, Nat2N.id, take_app_length, drop_app_length. reflexivity.
Qed.

Lemma ParseAttestation_app (ctx c1 c2 extra : deserializationContext)
    (t payload : list byte) (w : world) :
  readBytes attestationTagSize ctx = ROk (t, c1) ->
  readVarBytes readVarUint 0 attestationMaxPayloadSize c1 = ROk (payload, c2) ->
  ParseAttestation readVarUint (ctx ++ extra) w =
    bind (rangeAttestations readVarUint (attestations w) t payload
            (newDeserializationContext payload))
         (fun att => ret (att, c2 ++ extra)) w.
Proof.
  intros Ht Hp. apply readBytes_tag_inv in Ht as (Hlen & -> & ->).
  apply ParseAttestation_reads with (c1 := drop 8 ctx ++ extra).
  - now rewrite readBytes_app.
  - now apply readVarBytes_app.
Qed.

Lemma ParseAttestation_Ok_app (ctx rest extra : deserializationContext)
    (a : attestation) (w w' : world) :
  ParseAttestation readVarUint ctx w = (Ok (a, rest), w') ->
  ParseAttestation readVarUint (ctx ++ extra) w = (Ok (a, rest ++ extra), w').
Proof.
  destruct (readBytes attestationTagSize ctx) as [[t c1]|e] eqn:Ht;
    [|now rewrite (ParseAttestation_tag_error _ _ _ _ Ht)].
  destruct (readVarBytes readVarUint 0 attestationMaxPayloadSize c1)
    as [[payload c2]|e] eqn:Hp;
    [|now rewrite (ParseAttestation_payload_error _ _ _ _ _ _ Ht Hp)].
  rewrite (ParseAttestation_reads _ _ _ _ _ _ _ Ht Hp),
          (ParseAttestation_app _ _ _ extra _ _ _ Ht Hp).
  unfold bind.
  destruct (rangeAttestations readVarUint (attestations w) t payload
              (newDeserializationContext payload) w) as [[x|e|msg] w1];
    cbn [ret]; try discriminate.
  now intros [= <- <- <-].
Qed.

(** X5. A record is decoded from the front of the stream. If
    [ParseAttestation] returns an attestation for a stream, it returns the
    same attestation, with the same effect on the state, for that stream
    followed by any other bytes, and leaves those bytes unread after what it
    left before; a record that fails after it was framed fails with the same
    error. This holds in every state and for every integer reader that
    itself reads from the front. *)
Theorem trailing_bytes_left_unread :
  (forall (ctx rest extra : deserializationContext) (a : attestation)
          (w w' : world),
     ParseAttestation readVarUint ctx w = (Ok (a, rest), w') ->
     ParseAttestation readVarUint (ctx ++ extra) w = (Ok (a, rest ++ extra), w'))
  /\
  (forall (ctx c2 extra : deserializationContext) (payload : list byte)
          (e : error) (w w' : world),
     8 <= N.of_nat (length ctx) ->
     readVarBytes readVarUint 0 8192 (drop 8 ctx) = ROk (payload, c2) ->
     ParseAttestation readVarUint ctx w = (Err e, w') ->
     ParseAttestation readVarUint (ctx ++ extra) w = (Err e, w')).
Proof.
  split; [exact ParseAttestation_Ok_app|].
  intros ctx c2 extra payload e w w' Hlen Hp.
  pose proof (readBytes_tag ctx Hlen) as Ht.
  rewrite (ParseAttestation_reads _ _ _ _ _ _ _ Ht Hp),
          (ParseAttestation_app _ _ _ extra _ _ _ Ht Hp).
  unfold bind.
  destruct (rangeAttestations readVarUint (attestations w) (take 8 ctx) payload
              (newDeserializationContext payload) w) as [[x|e'|msg] w1];
    cbn [ret]; try discriminate.
  now intros [= <- <-].
Qed.

(** X6. Records that follow one another decode one after the other. If a
    stream holds exactly one record, then from that stream followed by a
    second stream [ParseAttestation] returns the first record's attestation
    and leaves the second stream; the state it ends in is again a state of
    the package, and decoding the second stream there gives what decoding it
    alone would have given. *)
Theorem records_decode_in_sequence (ctx1 ctx2 : deserializationContext)
    (a1 : attestation) (w w1 : world) :
  wellFormed w ->
  ParseAttestation readVarUint ctx1 w = (Ok (a1, []), w1) ->
  ParseAttestation readVarUint (ctx1 ++ ctx2) w = (Ok (a1, ctx2), w1) /\
  wellFormed w1 /\
  observe (ParseAttestation readVarUint ctx2 w1)
  = observe (ParseAttestation readVarUint ctx2 w).
Proof.
  intros Hw H1.
  assert (Hw1 : wellFormed w1).
  { pose proof (ParseAttestation_preserves readVarUint ctx1 w Hw) as H.
    now rewrite H1 in H. }
  split; [|split].
  - exact (ParseAttestation_Ok_app _ _ ctx2 _ _ _ H1).
  - exact Hw1.
  - now apply ParseAttestation_observe.
Qed.

End Framing.

(** ** Effects and panics in any state *)

Section AnyRegistry.

Variable readVarUint : reader uint64.

Lemma attestation_decode_alloc (a : attestation) (ctx : deserializationContext)
    (w : world) :
  snd (attestation_decode readVarUint a ctx w) = w \/
  exists o, snd (attestation_decode readVarUint a ctx w) = allocated w o.
Proof.
  destruct a as [p|b|u]; cbn [attestation_decode]; [| |now left].
  - unfold pendingAttestation_decode, bind.
    destruct (readVarBytes readVarUint 0 pendingAttestationMaxUriLength ctx)
      as [[s r]|e]; cbn [try ret fail]; [|now left].
    unfold loadPending. destruct (heap w !! p) as [[v|v]|]; [|now left..].
    right. eexists. reflexivity.
  - unfold bitcoinAttestation_decode, bind.
    destruct (readVarUint ctx) as [[h r]|e]; cbn [try ret fail]; [|now left].
    unfold loadBitcoin. destruct (heap w !! b) as [[v|v]|]; [now left| |now left].
    right. eexists. reflexivity.
Qed.

Lemma decodeMatched_alloc (a : attestation) (ctx : deserializationContext)
    (w : world) :
  snd (decodeMatched readVarUint a ctx w) = w \/
  exists o, snd (decodeMatched readVarUint a ctx w) = allocated w o.
Proof.
  rewrite decodeMatched_eval.
  pose proof (attestation_decode_alloc a ctx w) as H.
  destruct (attestation_decode readVarUint a ctx w) as [[[att r]|e|msg] w1];
    cbn [snd] in *; [|exact H..].
  now destruct (assertEOF r).
Qed.

Lemma rangeAttestations_alloc (l : list attestation) (t attBytes : list byte)
    (attCtx : deserializationContext) (w : world) :
  snd (rangeAttestations readVarUint l t attBytes attCtx w) = w \/
  exists o, snd (rangeAttestations readVarUint l t attBytes attCtx w)
            = allocated w o.
Proof.
  induction l as [|a l IH]; cbn [rangeAttestations]; [now left|].
  unfold bind. pose proof (attestation_match_state a t w) as Hm.
  destruct (attestation_match a t w) as [[[|]|e|msg] w1]; cbn [snd] in Hm; subst w1;
    [apply decodeMatched_alloc|exact IH|now left..].
Qed.

(** X7. A call of [ParseAttestation] creates at most one attestation
    struct, whatever the registry holds: the registry and the heap of
    [pendingAttestation] and [bitcoinAttestation] structs it ends with are
    those it started with, or those with one new struct, the copy whose
    address a decode returns. (Byte slices, the byte buffer and the
    sub-stream context are values here and are not counted.) Asking a
    prototype whether it matches changes neither the registry nor any
    struct. *)
Theorem at_most_one_struct_created :
  (forall (ctx : deserializationContext) (w : world),
     snd (ParseAttestation readVarUint ctx w) = w \/
     exists o, snd (ParseAttestation readVarUint ctx w) = allocated w o)
  /\
  (forall (a : attestation) (t : list byte) (w : world),
     snd (attestation_match a t w) = w).
Proof.
  split; [|exact attestation_match_state].
  intros ctx w.
  destruct (readBytes attestationTagSize ctx) as [[t c1]|e] eqn:Ht;
    [|left; now rewrite (ParseAttestation_tag_error _ _ _ _ Ht)].
  destruct (readVarBytes readVarUint 0 attestationMaxPayloadSize c1)
    as [[payload c2]|e] eqn:Hp;
    [|left; now rewrite (ParseAttestation_payload_error _ _ _ _ _ _ Ht Hp)].
  rewrite (ParseAttestation_reads _ _ _ _ _ _ _ Ht Hp). unfold bind.
  pose proof (rangeAttestations_alloc (attestations w) t payload
                (newDeserializationContext payload) w) as H.
  destruct (rangeAttestations readVarUint (attestations w) t payload
              (newDeserializationContext payload) w) as [[x|e|msg] w1];
    exact H.
Qed.

Lemma rangeAttestations_no_panic (l : list attestation) (t attBytes : list byte)
    (attCtx : deserializationContext) (w : world) (msg : string) :
  Forall (validPrototype w) l ->
  fst (rangeAttestations readVarUint l t attBytes attCtx w) <> Panic msg.
Proof.
  induction 1 as [|a l Ha _ IH]; cbn [rangeAttestations]; [discriminate|].
  unfold bind at 1.
  destruct (attestation_match_valid a t w Ha) as [m ->].
  destruct m; [|exact IH].
  rewrite decodeMatched_eval.
  destruct a as [p|b|u]; cbn [validPrototype attestation_decode] in *.
  - destruct Ha as [v Hv]. rewrite (pendingAttestation_decode_eval _ _ _ _ _ Hv).
    destruct (readVarBytes readVarUint 0 pendingAttestationMaxUriLength attCtx)
      as [[s r]|e]; [|discriminate].
    now destruct (assertEOF r).
  - destruct Ha as [v Hv]. rewrite (bitcoinAttestation_decode_eval _ _ _ _ _ Hv).
    destruct (readVarUint attCtx) as [[h r]|e]; [|discriminate].
    now destruct (assertEOF r).
  - destruct Ha.
Qed.

Lemma validPrototype_extends (w w' : world) (a : attestation) :
  extends w w' -> validPrototype w a -> validPrototype w' a.
Proof.
  intros Hext. destruct a as [p|b|u]; cbn [validPrototype]; [| |easy];
    intros [v Hv]; exists v; eapply extends_lookup; eassumption.
Qed.

(** X8. [ParseAttestation] cannot panic as long as every entry of the
    registry is a pointer to a struct of its type, whatever tags those
    prototypes carry and however many there are; the registry still meets
    that condition in the state the call ends in. The condition is needed:
    with an [unknownAttestation] at the head of the registry every framed
    record panics with "not implemented". *)
Theorem valid_registry_never_panics :
  (forall (ctx : deserializationContext) (w : world),
     Forall (validPrototype w) (attestations w) ->
     (forall msg, fst (ParseAttestation readVarUint ctx w) <> Panic msg) /\
     Forall (validPrototype (snd (ParseAttestation readVarUint ctx w)))
            (attestations (snd (ParseAttestation readVarUint ctx w))))
  /\
  (forall (ctx c1 c2 : deserializationContext) (t payload : list byte)
          (u : unknownAttestation) (l : list attestation) (w : world),
     readBytes attestationTagSize ctx = ROk (t, c1) ->
     readVarBytes readVarUint 0 attestationMaxPayloadSize c1 = ROk (payload, c2) ->
     attestations w = UnknownVal u :: l ->
     ParseAttestation readVarUint ctx w = (Panic "not implemented", w)).
Proof.
  split.
  - intros ctx w Hvalid. split.
    + intros msg.
      destruct (readBytes attestationTagSize ctx) as [[t c1]|e] eqn:Ht;
        [|now rewrite (ParseAttestation_tag_error _ _ _ _ Ht)].
      destruct (readVarBytes readVarUint 0 attestationMaxPayloadSize c1)
        as [[payload c2]|e] eqn:Hp;
        [|now rewrite (ParseAttestation_payload_error _ _ _ _ _ _ Ht Hp)].
      rewrite (ParseAttestation_reads _ _ _ _ _ _ _ Ht Hp). unfold bind.
      pose proof (rangeAttestations_no_panic (attestations w) t payload
                    (newDeserializationContext payload) w msg Hvalid) as H.
      destruct (rangeAttestations readVarUint (attestations w) t payload
                  (newDeserializationContext payload) w) as [[x|e|m] w1];
        cbn [fst ret] in *; [discriminate|discriminate|].
      intros [= E]. apply H. now rewrite E.
    + pose proof (framed_ParseAttestation readVarUint ctx w) as Hext.
      destruct Hext as [Hreg Hpre]. rewrite Hreg.
      eapply List.Forall_impl; [|exact Hvalid].
      intros a. apply validPrototype_extends. split; [exact Hreg|exact Hpre].
  - intros ctx c1 c2 t payload u l w Ht Hp Hreg.
    rewrite (ParseAttestation_reads _ _ _ _ _ _ _ Ht Hp), Hreg. reflexivity.
Qed.

End AnyRegistry.

(** ** The registry built by the constructors *)

Section Constructors.

Variable readVarUint : reader uint64.

Lemma initPackage_eval (w0 : world) :
  initPackage w0 =
    (Ok tt,
     {| heap := (heap w0 ++ [ObjPending pendingPrototype])
                ++ [ObjBitcoin bitcoinPrototype];
        attestations := [PendingPtr (length (heap w0));
                         BitcoinPtr (length (heap w0 ++ [ObjPending pendingPrototype]))] |}).
Proof. reflexivity. Qed.

Lemma ParseAttestation_observe_registry (ctx : deserializationContext)
    (w : world) (p b : loc) :
  attestations w = [PendingPtr p; BitcoinPtr b] ->
  heap w !! p = Some (ObjPending pendingPrototype) ->
  heap w !! b = Some (ObjBitcoin bitcoinPrototype) ->
  observe (ParseAttestation readVarUint ctx w)
  = observe (ParseAttestation readVarUint ctx initWorld).
Proof.
  intros Hreg Hp Hb.
  rewrite (ParseAttestation_wellFormed _ ctx initWorld wellFormed_initWorld).
  destruct (readBytes attestationTagSize ctx) as [[t c1]|e] eqn:Ht;
    [|now rewrite (ParseAttestation_tag_error _ _ _ _ Ht)].
  destruct (readVarBytes readVarUint 0 attestationMaxPayloadSize c1)
    as [[payload c2]|e] eqn:Hpay;
    [|now rewrite (ParseAttestation_payload_error _ _ _ _ _ _ Ht Hpay)].
  rewrite (ParseAttestation_reads _ _ _ _ _ _ _ Ht Hpay), Hreg.
  unfold newDeserializationContext.
  cbn [rangeAttestations attestation_match]. unfold bind at 1 2.
  rewrite (pendingAttestation_match_eval _ _ _ _ Hp).
  change (tag (pending_base pendingPrototype)) with pendingAttestationTag.
  destruct (bytes_Equal pendingAttestationTag t).
  - rewrite decodeMatched_eval. cbn [attestation_decode].
    rewrite (pendingAttestation_decode_eval _ _ _ _ _ Hp).
    destruct (readVarBytes readVarUint 0 pendingAttestationMaxUriLength payload)
      as [[s r]|e]; [|reflexivity].
    destruct (assertEOF r); [|reflexivity].
    cbn [ret observe]. now rewrite !deref_fresh_pending.
  - unfold bind at 1. rewrite (bitcoinAttestation_match_eval _ _ _ _ Hb).
    change (tag (bitcoin_base bitcoinPrototype)) with bitcoinAttestationTag.
    destruct (bytes_Equal bitcoinAttestationTag t); [|reflexivity].
    rewrite decodeMatched_eval. cbn [attestation_decode].
    rewrite (bitcoinAttestation_decode_eval _ _ _ _ _ Hb).
    destruct (readVarUint payload) as [[h r]|e]; [|reflexivity].
    destruct (assertEOF r); [|reflexivity].
    cbn [ret observe]. now rewrite !deref_fresh_bitcoin.
Qed.

(** X9. The behaviour of the decoder rests on the two constructors and not
    on where their prototypes live. In any state, building the registry from
    [newPendingAttestation()] and [newBitcoinAttestation()] leaves every
    existing object as it was, and in the state so built every stream
    decodes to what it decodes to right after package initialization: the
    same attestation value and stream position, or the same error. *)
Theorem registry_from_constructors (w0 : world) (ctx : deserializationContext) :
  fst (initPackage w0) = Ok tt /\
  (forall (l : loc) (o : object),
     heap w0 !! l = Some o -> heap (snd (initPackage w0)) !! l = Some o) /\
  Forall (validPrototype (snd (initPackage w0)))
         (attestations (snd (initPackage w0))) /\
  observe (ParseAttestation readVarUint ctx (snd (initPackage w0)))
  = observe (ParseAttestation readVarUint ctx initWorld).
Proof.
  rewrite initPackage_eval. cbn [fst snd heap attestations].
  assert (Hp : ((heap w0 ++ [ObjPending pendingPrototype])
                ++ [ObjBitcoin bitcoinPrototype]) !! length (heap w0)
               = Some (ObjPending pendingPrototype)).
  { rewrite lookup_app_l by (rewrite length_app; simpl; lia).
    now rewrite lookup_app_r, Nat.sub_diag by lia. }
  assert (Hb : ((heap w0 ++ [ObjPending pendingPrototype])
                ++ [ObjBitcoin bitcoinPrototype])
               !! length (heap w0 ++ [ObjPending pendingPrototype])
               = Some (ObjBitcoin bitcoinPrototype)).
  { now rewrite lookup_app_r, Nat.sub_diag by lia. }
  split; [reflexivity|]. split; [|split].
  - intros l o Hl. rewrite <- app_assoc. now apply lookup_app_l_Some.
  - repeat constructor; cbn [validPrototype heap]; eauto.
  - apply (ParseAttestation_observe_registry ctx _ (length (heap w0))
             (length (heap w0 ++ [ObjPending pendingPrototype])));
      [reflexivity|exact Hp|exact Hb].
Qed.

End Constructors.

(** ** Display *)

Lemma list_ascii_of_string_append (a b : string) :
  list_ascii_of_string (a ++ b)
  = list_ascii_of_string a ++ list_ascii_of_string b.
Proof. induction a as [|c a IH]; simpl; [reflexivity|now rewrite IH]. Qed.

Lemma string_append_inv_tail (a b c : string) :
  (a ++ c)%string = (b ++ c)%string -> a = b.
Proof.
  intros H. apply (f_equal list_ascii_of_string) in H.
  rewrite !list_ascii_of_string_append in H. apply app_inv_tail in H.
  rewrite <- (string_of_list_ascii_of_string a),
          <- (string_of_list_ascii_of_string b).
  now rewrite H.
Qed.

Lemma formatUint_parse (n : uint64) :
  option_map N.of_uint (NilEmpty.uint_of_string (formatUint n)) = Some n.
Proof.
  unfold formatUint. rewrite NilEmpty.usu. cbn [option_map].
  now rewrite DecimalN.Unsigned.of_to.
Qed.

Lemma formatUint_inj (n m : uint64) : formatUint n = formatUint m -> n = m.
Proof.
  intros H. pose proof (formatUint_parse n) as Hn.
  rewrite H, formatUint_parse in Hn. congruence.
Qed.

Lemma bitcoinAttestation_String_eval (w : world) (b : loc)
    (v : bitcoinAttestation) :
  heap w !! b = Some (ObjBitcoin v) ->
  bitcoinAttestation_String b w
  = (Ok ("VERIFY BitcoinAttestation(height=" ++ formatUint (height v) ++ ")")%string,
     w).
Proof.
  intros H. unfold bitcoinAttestation_String, bind.
  now rewrite (loadBitcoin_eval _ _ _ H).
Qed.

Lemma pendingAttestation_String_eval (w : world) (p : loc)
    (v : pendingAttestation) :
  heap w !! p = Some (ObjPending v) ->
  pendingAttestation_String p w
  = (Ok ("VERIFY PendingAttestation(url=" ++ uri v ++ ")")%string, w).
Proof.
  intros H. unfold pendingAttestation_String, bind.
  now rewrite (loadPending_eval _ _ _ H).
Qed.

Section Display.

Variable readVarUint : reader uint64.

(** X10. The display of a [bitcoinAttestation] names its height and nothing
    else varies in it: the text is the fixed words around the decimal digits
    of [height], the digits read back as the height, and two attestations
    with the same display have the same height. The attestation that
    [ParseAttestation] returns for a bitcoin record displays the integer
    that was the record's payload; its display cannot fail and changes no
    state. *)
Theorem bitcoin_display_names_height :
  (forall (w : world) (b1 b2 : loc) (v1 v2 : bitcoinAttestation) (s : string),
     heap w !! b1 = Some (ObjBitcoin v1) ->
     heap w !! b2 = Some (ObjBitcoin v2) ->
     bitcoinAttestation_String b1 w = (Ok s, w) ->
     bitcoinAttestation_String b2 w = (Ok s, w) ->
     height v1 = height v2)
  /\
  (forall n : uint64,
     option_map N.of_uint (NilEmpty.uint_of_string (formatUint n)) = Some n)
  /\
  (forall (ctx rest : deserializationContext) (l : loc) (w w' : world),
     wellFormed w ->
     ParseAttestation readVarUint ctx w = (Ok (BitcoinPtr l, rest), w') ->
     exists (payload : list byte) (h : uint64),
       readVarBytes readVarUint 0 8192 (drop 8 ctx) = ROk (payload, rest) /\
       readVarUint payload = ROk (h, []) /\
       bitcoinAttestation_String l w'
       = (Ok ("VERIFY BitcoinAttestation(height=" ++ formatUint h ++ ")")%string,
          w')).
Proof.
  split; [|split].
  - intros w b1 b2 v1 v2 s H1 H2.
    rewrite (bitcoinAttestation_String_eval _ _ _ H1),
            (bitcoinAttestation_String_eval _ _ _ H2).
    intros [= <-] [= E].
    apply string_append_inv_tail in E.
    symmetry. now apply formatUint_inj.
  - exact formatUint_parse.
  - intros ctx rest l w w' Hw. rewrite (ParseAttestation_wellFormed _ _ _ Hw).
    destruct (readBytes attestationTagSize ctx) as [[t c1]|e] eqn:Ht; [|discriminate].
    apply readBytes_tag_inv in Ht as (Hlen & -> & ->).
    destruct (readVarBytes readVarUint 0 attestationMaxPayloadSize (drop 8 ctx))
      as [[payload c2]|e] eqn:Hp; [|discriminate].
    destruct (bytes_Equal pendingAttestationTag (take 8 ctx)).
    + destruct (readVarBytes readVarUint 0 pendingAttestationMaxUriLength payload)
        as [[s r]|e]; [|discriminate].
      destruct (assertEOF r); discriminate.
    + destruct (bytes_Equal bitcoinAttestationTag (take 8 ctx)); [|discriminate].
      destruct (readVarUint payload) as [[h r]|e] eqn:Hh; [|discriminate].
      destruct r as [|x r]; cbn [assertEOF]; [|discriminate].
      intros [= <- <- <-]. exists payload, h.
      split; [exact Hp|]. split; [exact Hh|].
      now rewrite (bitcoinAttestation_String_eval _ _ _ (deref_allocated _ _)).
Qed.

(** X11. The display of a [pendingAttestation] is the fixed words around
    the [uri], written as it is, so two attestations with the same display
    have the same [uri]. The attestation that [ParseAttestation] returns for
    a pending record displays the bytes of the record's byte sequence; its
    display cannot fail and changes no state. *)
Theorem pending_display_names_uri :
  (forall (w : world) (p1 p2 : loc) (v1 v2 : pendingAttestation) (s : string),
     heap w !! p1 = Some (ObjPending v1) ->
     heap w !! p2 = Some (ObjPending v2) ->
     pendingAttestation_String p1 w = (Ok s, w) ->
     pendingAttestation_String p2 w = (Ok s, w) ->
     uri v1 = uri v2)
  /\
  (forall (ctx rest : deserializationContext) (l : loc) (w w' : world),
     wellFormed w ->
     ParseAttestation readVarUint ctx w = (Ok (PendingPtr l, rest), w') ->
     exists (payload s : list byte),
       readVarBytes readVarUint 0 8192 (drop 8 ctx) = ROk (payload, rest) /\
       readVarBytes readVarUint 0 1000 payload = ROk (s, []) /\
       pendingAttestation_String l w'
       = (Ok ("VERIFY PendingAttestation(url=" ++ string_of_list_byte s ++ ")")%string,
          w')).
Proof.
  split.
  - intros w p1 p2 v1 v2 s H1 H2.
    rewrite (pendingAttestation_String_eval _ _ _ H1),
            (pendingAttestation_String_eval _ _ _ H2).
    intros [= <-] [= E].
    apply string_append_inv_tail in E. now symmetry.
  - intros ctx rest l w w' Hw. rewrite (ParseAttestation_wellFormed _ _ _ Hw).
    destruct (readBytes attestationTagSize ctx) as [[t c1]|e] eqn:Ht; [|discriminate].
    apply readBytes_tag_inv in Ht as (Hlen & -> & ->).
    destruct (readVarBytes readVarUint 0 attestationMaxPayloadSize (drop 8 ctx))
      as [[payload c2]|e] eqn:Hp; [|discriminate].
    destruct (bytes_Equal pendingAttestationTag (take 8 ctx)).
    + destruct (readVarBytes readVarUint 0 pendingAttestationMaxUriLength payload)
        as [[s r]|e] eqn:Hs; [|discriminate].
      destruct r as [|x r]; cbn [assertEOF]; [|discriminate].
      intros [= <- <- <-]. exists payload, s.
      split; [exact Hp|]. split; [exact Hs|].
      now rewrite (pendingAttestation_String_eval _ _ _ (deref_allocated _ _)).
    + destruct (bytes_Equal bitcoinAttestationTag (take 8 ctx)); [|discriminate].
      destruct (readVarUint payload) as [[h r]|e]; [|discriminate].
      destruct (assertEOF r); discriminate.
Qed.

End Display.

(** ** The further properties on concrete records *)

Lemma leb128_from_app (ctx rest extra : deserializationContext) (shift val : N)
    (v : uint64) :
  leb128_from shift val ctx = ROk (v, rest) ->
  leb128_from shift val (ctx ++ extra) = ROk (v, rest ++ extra).
Proof.
  revert shift val. induction ctx as [|b ctx IH]; intros shift val; simpl;
    [discriminate|].
  destruct (N.testbit (Byte.to_N b) 7); [apply IH|].
  destruct (_ <? 2 ^ 64); [|discriminate].
  now intros [= <- <-].
Qed.

Lemma leb128_readsFront : readsFront leb128.
Proof. intros c rest extra v. apply leb128_from_app. Qed.

Example bitcoin_display_1000 :
  fst (bitcoinAttestation_String 2%nat
         (snd (ParseAttestation leb128
                 (mustDecodeHex "0588960d73d7190102e807") initWorld)))
  = Ok "VERIFY BitcoinAttestation(height=1000)"%string.
Proof. vm_compute. reflexivity. Qed.

Example pending_display_abc :
  fst (pendingAttestation_String 2%nat
         (snd (ParseAttestation leb128
                 (mustDecodeHex "83dfe30d2ef90c8e0403616263") initWorld)))
  = Ok "VERIFY PendingAttestation(url=abc)"%string.
Proof. vm_compute. reflexivity. Qed.

Lemma decode_error_propagated_witness :
  ParseAttestation leb128 (mustDecodeHex "83dfe30d2ef90c8e02e907") initWorld
  = (Err (ReadError PayloadTooLarge), initWorld).
Proof.
  apply (proj1 (proj2 (decode_error_propagated leb128
           (mustDecodeHex "83dfe30d2ef90c8e02e907") (mustDecodeHex "02e907") []
           pendingAttestationTag (mustDecodeHex "e907") initWorld
           wellFormed_initWorld eq_refl eq_refl)) PayloadTooLarge).
  - reflexivity.
  - reflexivity.
Defined.

Lemma success_inverted_witness :
  8 <= N.of_nat (length (mustDecodeHex "0588960d73d7190102e807")) /\
  take 8 (mustDecodeHex "0588960d73d7190102e807") = bitcoinAttestationTag.
Proof.
  destruct (success_inverted leb128 (mustDecodeHex "0588960d73d7190102e807") []
              (BitcoinPtr 2%nat) initWorld
              (snd (ParseAttestation leb128
                      (mustDecodeHex "0588960d73d7190102e807") initWorld))
              wellFormed_initWorld eq_refl)
    as (Hlen & payload & _ & Htag & _).
  split; [exact Hlen|exact Htag].
Defined.

Lemma decoded_sizes_bounded_witness :
  match deref (snd (ParseAttestation leb128
                      (mustDecodeHex "ffffffffffffffff03616263") initWorld))
              (UnknownVal {| unknown_tag := mustDecodeHex "ffffffffffffffff";
                             bytes := mustDecodeHex "616263" |}) with
  | Some (VPending v) =>
      tag (pending_base v) = take 8 (mustDecodeHex "ffffffffffffffff03616263") /\
      length (tag (pending_base v)) = 8%nat /\
      N.of_nat (length (list_byte_of_string (uri v))) <= 1000
  | Some (VBitcoin v) =>
      tag (bitcoin_base v) = take 8 (mustDecodeHex "ffffffffffffffff03616263") /\
      length (tag (bitcoin_base v)) = 8%nat
  | Some (VUnknown u) =>
      unknown_tag u = take 8 (mustDecodeHex "ffffffffffffffff03616263") /\
      length (unknown_tag u) = 8%nat /\
      N.of_nat (length (bytes u)) <= 8192
  | None => False
  end.
Proof.
  apply (decoded_sizes_bounded leb128
           (mustDecodeHex "ffffffffffffffff03616263") [] _ initWorld
           wellFormed_initWorld).
  reflexivity.
Defined.

Lemma failure_inverted_witness :
  ((exists re, Errorf "expected EOF in attCtx" = ReadError re) /\
   snd (ParseAttestation leb128
          (mustDecodeHex "0588960d73d7190103e80700") initWorld) = initWorld)
  \/
  (Errorf "expected EOF in attCtx" = Errorf "expected EOF in attCtx" /\
   8 <= N.of_nat (length (mustDecodeHex "0588960d73d7190103e80700")) /\
   exists (payload : list byte) (c2 r : deserializationContext),
     readVarBytes leb128 0 8192 (drop 8 (mustDecodeHex "0588960d73d7190103e80700"))
       = ROk (payload, c2) /\
     r <> [] /\
     ((take 8 (mustDecodeHex "0588960d73d7190103e80700") = pendingAttestationTag /\
       exists s, readVarBytes leb128 0 1000 payload = ROk (s, r))
      \/
      (take 8 (mustDecodeHex "0588960d73d7190103e80700") = bitcoinAttestationTag /\
       exists h, leb128 payload = ROk (h, r)))).
Proof.
  apply (failure_inverted leb128 (mustDecodeHex "0588960d73d7190103e80700")
           (Errorf "expected EOF in attCtx") initWorld wellFormed_initWorld).
  reflexivity.
Defined.

Lemma trailing_bytes_left_unread_witness :
  ParseAttestation leb128
    (mustDecodeHex "ffffffffffffffff03616263" ++ mustDecodeHex "aabb") initWorld
  = (Ok (UnknownVal {| unknown_tag := mustDecodeHex "ffffffffffffffff";
                       bytes := mustDecodeHex "616263" |},
         [] ++ mustDecodeHex "aabb"), initWorld).
Proof.
  apply (proj1 (trailing_bytes_left_unread leb128 leb128_readsFront)
           (mustDecodeHex "ffffffffffffffff03616263") [] (mustDecodeHex "aabb")).
  reflexivity.
Defined.

Lemma records_decode_in_sequence_witness :
  ParseAttestation leb128
    (mustDecodeHex "0588960d73d7190102e807"
     ++ mustDecodeHex "ffffffffffffffff03616263") initWorld
  = (Ok (BitcoinPtr 2%nat, mustDecodeHex "ffffffffffffffff03616263"),
     snd (ParseAttestation leb128 (mustDecodeHex "0588960d73d7190102e807")
            initWorld)).
Proof.
  apply (records_decode_in_sequence leb128 leb128_readsFront
           (mustDecodeHex "0588960d73d7190102e807")
           (mustDecodeHex "ffffffffffffffff03616263")
           (BitcoinPtr 2%nat) initWorld _ wellFormed_initWorld).
  reflexivity.
Defined.

Lemma valid_registry_never_panics_witness :
  fst (ParseAttestation leb128 (mustDecodeHex "0588960d73d7190102e807") initWorld)
  <> Panic "not implemented".
Proof.
  apply (proj1 (valid_registry_never_panics leb128)
           (mustDecodeHex "0588960d73d7190102e807") initWorld).
  repeat constructor; cbn [validPrototype]; eexists; reflexivity.
Defined.

Lemma registry_from_constructors_witness :
  observe (ParseAttestation leb128 (mustDecodeHex "0588960d73d7190102e807")
             (snd (initPackage initWorld)))
  = observe (ParseAttestation leb128 (mustDecodeHex "0588960d73d7190102e807")
               initWorld).
Proof.
  apply (registry_from_constructors leb128 initWorld
           (mustDecodeHex "0588960d73d7190102e807")).
Defined.

Lemma bitcoin_display_names_height_witness :
  exists (payload : list byte) (h : uint64),
    readVarBytes leb128 0 8192 (drop 8 (mustDecodeHex "0588960d73d7190102e807"))
      = ROk (payload, []) /\
    leb128 payload = ROk (h, []) /\
    bitcoinAttestation_String 2%nat
      (snd (ParseAttestation leb128 (mustDecodeHex "0588960d73d7190102e807")
              initWorld))
    = (Ok ("VERIFY BitcoinAttestation(height=" ++ formatUint h ++ ")")%string,
       snd (ParseAttestation leb128 (mustDecodeHex "0588960d73d7190102e807")
              initWorld)).
Proof.
  apply (proj2 (proj2 (bitcoin_display_names_height leb128))
           (mustDecodeHex "0588960d73d7190102e807") [] 2%nat initWorld _
           wellFormed_initWorld).
  reflexivity.
Defined.

Lemma pending_display_names_uri_witness :
  exists (payload s : list byte),
    readVarBytes leb128 0 8192
      (drop 8 (mustDecodeHex "83dfe30d2ef90c8e0403616263")) = ROk (payload, []) /\
    readVarBytes leb128 0 1000 payload = ROk (s, []) /\
    pendingAttestation_String 2%nat
      (snd (ParseAttestation leb128 (mustDecodeHex "83dfe30d2ef90c8e0403616263")
              initWorld))
    = (Ok ("VERIFY PendingAttestation(url=" ++ string_of_list_byte s ++ ")")%string,
       snd (ParseAttestation leb128 (mustDecodeHex "83dfe30d2ef90c8e0403616263")
              initWorld)).
Proof.
  apply (proj2 (pending_display_names_uri leb128)
           (mustDecodeHex "83dfe30d2ef90c8e0403616263") [] 2%nat initWorld _
           wellFormed_initWorld).
  reflexivity.
Defined.
